(** * Frame orchestration of the progressive renderer

    A shallow embedding of [src/renderer/RenderingPipeline.js] and
    [src/renderer/Framebuffer.js].  The pipeline object is a record, its
    methods are computations in a small monad that threads the record,
    collects the calls issued to the WebGL context and to the draw passes,
    and propagates JavaScript exceptions: the [TypeError] of reading a
    property of [null], and the [ReferenceError] of reading an identifier
    that nothing binds.

    Numbers handed in by the embedding application (camera scalars, clock
    readings, sizes) are IEEE binary64 values, as in JavaScript.  The two
    counters [sampleCount] and [numPreviewsRendered] only ever hold small
    integers and are kept in [Z]; where the code computes with them they
    are converted to binary64 and the arithmetic is that of JavaScript. *)

From Stdlib Require Import Floats ZArith List Bool Lia.
Import ListNotations.

Local Open Scope Z_scope.

(** ** JavaScript numbers *)

Module JS.

Definition number : Type := float.

(** [x === y] on two numbers: IEEE equality, so [NaN] differs from itself
    and the two zeros are equal. *)
Definition strict_eq (x y : number) : bool := PrimFloat.eqb x y.

Definition isNaN (x : number) : bool := PrimFloat.is_nan x.

(** [ToNumber] of a field that holds [null] or a number. *)
Definition to_number (x : option number) : number :=
  match x with
  | Some v => v
  | None => PrimFloat.zero
  end.

(** [x - y] where either side may still be [null]. *)
Definition sub (x y : option number) : number :=
  PrimFloat.sub (to_number x) (to_number y).

(** [ToBoolean] of a number: zero (of either sign) and [NaN] are falsy. *)
Definition truthy (x : number) : bool :=
  negb (PrimFloat.eqb x PrimFloat.zero) && negb (isNaN x).

(** [x || NaN]. *)
Definition or_NaN (x : number) : number :=
  if truthy x then x else PrimFloat.nan.

(** The number an integer counter holds: the binary64 value nearest to it. *)
Definition of_Z (z : Z) : number :=
  SF2Prim (binary_normalize prec emax z 0 false).

End JS.

Abbreviation number := JS.number.

(** ** Cameras *)

(** The part of a [PerspectiveCamera] the pipeline reads: the sixteen
    entries of [matrixWorld.elements], [fov] and [aspect]. *)
Record Camera : Type := {
  matrixWorld : list number;
  fov : number;
  aspect : number
}.

(** Modelled from the spec: [numberArraysEqual] of [util.js], which is not
    among the sources.  Two arrays are equal when they have the same
    entries, pairwise numerically equal. *)
Fixpoint numberArraysEqual (a b : list number) : bool :=
  match a, b with
  | [], [] => true
  | x :: a', y :: b' => JS.strict_eq x y && numberArraysEqual a' b'
  | _, _ => false
  end.

Definition areCamerasEqual (cam1 cam2 : Camera) : bool :=
  numberArraysEqual (matrixWorld cam1) (matrixWorld cam2) &&
  JS.strict_eq (aspect cam1) (aspect cam2) &&
  JS.strict_eq (fov cam1) (fov cam2).

(** [lastCamera.copy(camera)]: the snapshot takes over the compared fields. *)
Definition Camera_copy (source : Camera) : Camera :=
  {| matrixWorld := matrixWorld source;
     fov := fov source;
     aspect := aspect source |}.

(** Numerical equality of two snapshots, scalar by scalar. *)
Definition numerically_equal (A B : Camera) : Prop :=
  Forall2 (fun x y => JS.strict_eq x y = true) (matrixWorld A) (matrixWorld B) /\
  JS.strict_eq (fov A) (fov B) = true /\
  JS.strict_eq (aspect A) (aspect B) = true.

Definition has_NaN (A : Camera) : bool :=
  existsb JS.isNaN (matrixWorld A) || JS.isNaN (fov A) || JS.isNaN (aspect A).

(** ** GPU resources *)

Record Vector2 : Type := { vx : number; vy : number }.

Definition Vector2_clone (v : Vector2) : Vector2 := {| vx := vx v; vy := vy v |}.

Inductive Storage : Type := storage_float | storage_halfFloat | storage_byte.

(** The options object handed to [makeTexture]. *)
Record TextureOptions : Type := {
  opt_width : number;
  opt_height : number;
  opt_storage : Storage;
  opt_channels : option nat;
  opt_linear : bool
}.

(** Modelled from the spec: [makeTexture] and [makeDepthTarget] of
    [Texture.js], which is not among the sources, are opaque constructors of
    GPU resources; a resource is known here by the handle it was created
    with. *)
Record Texture : Type := { texture : nat }.

Record DepthTarget : Type := { renderbuffer : nat }.

(** What [makeFramebuffer] returns: the [color] object (output location to
    texture, kept in ascending key order as [for ... in] visits it) and the
    WebGL framebuffer its [bind] and [unbind] closures act on. *)
Record Framebuffer : Type := {
  color : list (N * Texture);
  framebuffer : nat
}.

(** [obj[k]], [undefined] when the key is absent. *)
Fixpoint obj_get {V : Type} (obj : list (N * V)) (k : N) : option V :=
  match obj with
  | [] => None
  | (k', v) :: rest => if N.eqb k k' then Some v else obj_get rest k
  end.

(** [obj[k] = v] on an object with integer keys: a later write to the same
    key replaces the earlier one. *)
Fixpoint obj_set {V : Type} (k : N) (v : V) (obj : list (N * V)) : list (N * V) :=
  match obj with
  | [] => [(k, v)]
  | (k', v') :: rest =>
      if N.ltb k k' then (k, v) :: (k', v') :: rest
      else if N.eqb k k' then (k, v) :: rest
      else (k', v') :: obj_set k v rest
  end.

(** An object literal with computed keys, written entry by entry. *)
Definition obj_literal {V : Type} (entries : list (N * V)) : list (N * V) :=
  fold_left (fun obj entry => obj_set (fst entry) (snd entry) obj) entries [].

(** ** Tiles *)

Record Tile : Type := {
  x : number;
  y : number;
  tileWidth : number;
  tileHeight : number;
  isFirstTile : bool;
  isLastTile : bool
}.

(** ** Calls issued to the WebGL context and to the collaborators *)

Record GBufferTextures : Type := {
  gb_position : option Texture;
  gb_normal : option Texture;
  gb_faceNormal : option Texture;
  gb_color : option Texture;
  gb_matProps : option Texture
}.

Record ReprojectArgs : Type := {
  blendAmount : number;
  light : option Texture;
  lightScale : Vector2;
  position : option Texture;
  previousLight : option Texture;
  previousLightScale : Vector2;
  previousPosition : option Texture
}.

Record ToneMapArgs : Type := {
  tm_light : option Texture;
  tm_lightScale : Vector2;
  tm_position : option Texture
}.

Inductive Capability : Type := BLEND | SCISSOR_TEST.

Inductive Call : Type :=
| gl_createFramebuffer (fb : nat)
| gl_bindFramebuffer (fb : option nat)
| gl_framebufferTexture2D (attachment : N) (tex : Texture)
| gl_drawBuffers (attachments : list N)
| gl_framebufferRenderbuffer (depth : DepthTarget)
| gl_clear (color_bit depth_bit : bool)
| gl_viewport (vp_x vp_y vp_width vp_height : number)
| gl_scissor (sc_x sc_y sc_width sc_height : number)
| gl_enable (cap : Capability)
| gl_disable (cap : Capability)
| gl_blendEquation_FUNC_ADD
| gl_blendFunc_ONE_ONE
| Texture_makeTexture (tex : Texture) (options : TextureOptions)
| Texture_makeDepthTarget (depth : DepthTarget) (width height : number)
| rayTracePass_setNoise
| rayTracePass_setSize (width height : number)
| rayTracePass_setJitter (jitterX jitterY : number)
| rayTracePass_setStrataCount (strata : Z)
| rayTracePass_nextSeed
| rayTracePass_setGBuffers (textures : GBufferTextures)
| rayTracePass_setCamera (camera : Camera)
| rayTracePass_bindTextures
| rayTracePass_draw
| gBufferPass_setJitter (jitterX jitterY : number)
| gBufferPass_setCamera (camera : Camera)
| gBufferPass_draw
| reprojectPass_setJitter (jitterX jitterY : number)
| reprojectPass_setPreviousCamera (camera : Camera)
| reprojectPass_draw (args : ReprojectArgs)
| toneMapPass_draw (args : ToneMapArgs)
| tileRender_setSize (width height : number)
| tileRender_reset
| tileRender_nextTile (elapsed : option number) (tile : Tile)
| previewSize_setSize (width height : number)
| previewSize_adjustSize (elapsed : option number)
| sampleRenderedCallback (sampleIndex : Z) (elapsed : number).

(** ** Collaborators whose answers steer the orchestrator *)

(** [TileRender.js] and [RenderSize.js] are not among the sources; the
    pipeline is written against their interface. *)
Class TileRender : Type := {
  TileState : Type;
  makeTileRender : TileState;
  TileRender_setSize : number -> number -> TileState -> TileState;
  TileRender_reset : TileState -> TileState;
  TileRender_nextTile : option number -> TileState -> Tile * TileState
}.

Class RenderSize : Type := {
  SizeState : Type;
  makeRenderSize : SizeState;
  RenderSize_setSize : number -> number -> SizeState -> SizeState;
  RenderSize_adjustSize : option number -> SizeState -> SizeState;
  RenderSize_width : SizeState -> number;
  RenderSize_height : SizeState -> number;
  RenderSize_scale : SizeState -> Vector2
}.

Record GBufferOutputLocs : Type := {
  loc_position : N;
  loc_normal : N;
  loc_faceNormal : N;
  loc_color : N;
  loc_matProps : N
}.

(** What the surroundings fix: the values [Math.random()] yields, call after
    call, the size of the drawing buffer, and the output locations the two
    passes publish. *)
Record Environment : Type := {
  Math_random : nat -> number;
  drawingBufferWidth : number;
  drawingBufferHeight : number;
  rayTrace_light : N;
  gBufferOutputLocs : GBufferOutputLocs
}.

Definition COLOR_ATTACHMENT0 : N := 36064%N.

Section Orchestrator.

Context {TR : TileRender} {RS : RenderSize}.
Variable env : Environment.

(** ** The pipeline object *)

Record Pipeline : Type := {
  ready : bool;
  frameTime : option number;
  elapsedFrameTime : option number;
  sampleTime : option number;
  sampleCount : Z;
  numPreviewsRendered : Z;
  firstFrame : bool;
  lastCamera : Camera;
  screenWidth : number;
  screenHeight : number;
  lastToneMappedScale : Vector2;
  hdrBuffer : option Framebuffer;
  hdrBackBuffer : option Framebuffer;
  reprojectBuffer : option Framebuffer;
  reprojectBackBuffer : option Framebuffer;
  gBuffer : option Framebuffer;
  gBufferBack : option Framebuffer;
  lastToneMappedTexture : option Texture;
  tileRender : TileState;
  previewSize : SizeState;
  gl_objects : nat;
  random_draws : nat
}.

Definition set_ready (v : bool) (p : Pipeline) : Pipeline :=
  {| ready := v; frameTime := frameTime p; elapsedFrameTime := elapsedFrameTime p;
     sampleTime := sampleTime p; sampleCount := sampleCount p;
     numPreviewsRendered := numPreviewsRendered p; firstFrame := firstFrame p;
     lastCamera := lastCamera p; screenWidth := screenWidth p;
     screenHeight := screenHeight p; lastToneMappedScale := lastToneMappedScale p;
     hdrBuffer := hdrBuffer p; hdrBackBuffer := hdrBackBuffer p;
     reprojectBuffer := reprojectBuffer p; reprojectBackBuffer := reprojectBackBuffer p;
     gBuffer := gBuffer p; gBufferBack := gBufferBack p;
     lastToneMappedTexture := lastToneMappedTexture p; tileRender := tileRender p;
     previewSize := previewSize p; gl_objects := gl_objects p;
     random_draws := random_draws p |}.

Definition set_frameTime (v : option number) (p : Pipeline) : Pipeline :=
  {| ready := ready p; frameTime := v; elapsedFrameTime := elapsedFrameTime p;
     sampleTime := sampleTime p; sampleCount := sampleCount p;
     numPreviewsRendered := numPreviewsRendered p; firstFrame := firstFrame p;
     lastCamera := lastCamera p; screenWidth := screenWidth p;
     screenHeight := screenHeight p; lastToneMappedScale := lastToneMappedScale p;
     hdrBuffer := hdrBuffer p; hdrBackBuffer := hdrBackBuffer p;
     reprojectBuffer := reprojectBuffer p; reprojectBackBuffer := reprojectBackBuffer p;
     gBuffer := gBuffer p; gBufferBack := gBufferBack p;
     lastToneMappedTexture := lastToneMappedTexture p; tileRender := tileRender p;
     previewSize := previewSize p; gl_objects := gl_objects p;
     random_draws := random_draws p |}.

Definition set_elapsedFrameTime (v : option number) (p : Pipeline) : Pipeline :=
  {| ready := ready p; frameTime := frameTime p; elapsedFrameTime := v;
     sampleTime := sampleTime p; sampleCount := sampleCount p;
     numPreviewsRendered := numPreviewsRendered p; firstFrame := firstFrame p;
     lastCamera := lastCamera p; screenWidth := screenWidth p;
     screenHeight := screenHeight p; lastToneMappedScale := lastToneMappedScale p;
     hdrBuffer := hdrBuffer p; hdrBackBuffer := hdrBackBuffer p;
     reprojectBuffer := reprojectBuffer p; reprojectBackBuffer := reprojectBackBuffer p;
     gBuffer := gBuffer p; gBufferBack := gBufferBack p;
     lastToneMappedTexture := lastToneMappedTexture p; tileRender := tileRender p;
     previewSize := previewSize p; gl_objects := gl_objects p;
     random_draws := random_draws p |}.

Definition set_sampleTime (v : option number) (p : Pipeline) : Pipeline :=
  {| ready := ready p; frameTime := frameTime p; elapsedFrameTime := elapsedFrameTime p;
     sampleTime := v; sampleCount := sampleCount p;
     numPreviewsRendered := numPreviewsRendered p; firstFrame := firstFrame p;
     lastCamera := lastCamera p; screenWidth := screenWidth p;
     screenHeight := screenHeight p; lastToneMappedScale := lastToneMappedScale p;
     hdrBuffer := hdrBuffer p; hdrBackBuffer := hdrBackBuffer p;
     reprojectBuffer := reprojectBuffer p; reprojectBackBuffer := reprojectBackBuffer p;
     gBuffer := gBuffer p; gBufferBack := gBufferBack p;
     lastToneMappedTexture := lastToneMappedTexture p; tileRender := tileRender p;
     previewSize := previewSize p; gl_objects := gl_objects p;
     random_draws := random_draws p |}.

Definition set_sampleCount (v : Z) (p : Pipeline) : Pipeline :=
  {| ready := ready p; frameTime := frameTime p; elapsedFrameTime := elapsedFrameTime p;
     sampleTime := sampleTime p; sampleCount := v;
     numPreviewsRendered := numPreviewsRendered p; firstFrame := firstFrame p;
     lastCamera := lastCamera p; screenWidth := screenWidth p;
     screenHeight := screenHeight p; lastToneMappedScale := lastToneMappedScale p;
     hdrBuffer := hdrBuffer p; hdrBackBuffer := hdrBackBuffer p;
     reprojectBuffer := reprojectBuffer p; reprojectBackBuffer := reprojectBackBuffer p;
     gBuffer := gBuffer p; gBufferBack := gBufferBack p;
     lastToneMappedTexture := lastToneMappedTexture p; tileRender := tileRender p;
     previewSize := previewSize p; gl_objects := gl_objects p;
     random_draws := random_draws p |}.

Definition set_numPreviewsRendered (v : Z) (p : Pipeline) : Pipeline :=
  {| ready := ready p; frameTime := frameTime p; elapsedFrameTime := elapsedFrameTime p;
     sampleTime := sampleTime p; sampleCount := sampleCount p; numPreviewsRendered := v;
     firstFrame := firstFrame p; lastCamera := lastCamera p; screenWidth := screenWidth p;
     screenHeight := screenHeight p; lastToneMappedScale := lastToneMappedScale p;
     hdrBuffer := hdrBuffer p; hdrBackBuffer := hdrBackBuffer p;
     reprojectBuffer := reprojectBuffer p; reprojectBackBuffer := reprojectBackBuffer p;
     gBuffer := gBuffer p; gBufferBack := gBufferBack p;
     lastToneMappedTexture := lastToneMappedTexture p; tileRender := tileRender p;
     previewSize := previewSize p; gl_objects := gl_objects p;
     random_draws := random_draws p |}.

Definition set_firstFrame (v : bool) (p : Pipeline) : Pipeline :=
  {| ready := ready p; frameTime := frameTime p; elapsedFrameTime := elapsedFrameTime p;
     sampleTime := sampleTime p; sampleCount := sampleCount p;
     numPreviewsRendered := numPreviewsRendered p; firstFrame := v;
     lastCamera := lastCamera p; screenWidth := screenWidth p;
     screenHeight := screenHeight p; lastToneMappedScale := lastToneMappedScale p;
     hdrBuffer := hdrBuffer p; hdrBackBuffer := hdrBackBuffer p;
     reprojectBuffer := reprojectBuffer p; reprojectBackBuffer := reprojectBackBuffer p;
     gBuffer := gBuffer p; gBufferBack := gBufferBack p;
     lastToneMappedTexture := lastToneMappedTexture p; tileRender := tileRender p;
     previewSize := previewSize p; gl_objects := gl_objects p;
     random_draws := random_draws p |}.

Definition set_lastCamera (v : Camera) (p : Pipeline) : Pipeline :=
  {| ready := ready p; frameTime := frameTime p; elapsedFrameTime := elapsedFrameTime p;
     sampleTime := sampleTime p; sampleCount := sampleCount p;
     numPreviewsRendered := numPreviewsRendered p; firstFrame := firstFrame p;
     lastCamera := v; screenWidth := screenWidth p; screenHeight := screenHeight p;
     lastToneMappedScale := lastToneMappedScale p; hdrBuffer := hdrBuffer p;
     hdrBackBuffer := hdrBackBuffer p; reprojectBuffer := reprojectBuffer p;
     reprojectBackBuffer := reprojectBackBuffer p; gBuffer := gBuffer p;
     gBufferBack := gBufferBack p; lastToneMappedTexture := lastToneMappedTexture p;
     tileRender := tileRender p; previewSize := previewSize p; gl_objects := gl_objects p;
     random_draws := random_draws p |}.

Definition set_screenWidth (v : number) (p : Pipeline) : Pipeline :=
  {| ready := ready p; frameTime := frameTime p; elapsedFrameTime := elapsedFrameTime p;
     sampleTime := sampleTime p; sampleCount := sampleCount p;
     numPreviewsRendered := numPreviewsRendered p; firstFrame := firstFrame p;
     lastCamera := lastCamera p; screenWidth := v; screenHeight := screenHeight p;
     lastToneMappedScale := lastToneMappedScale p; hdrBuffer := hdrBuffer p;
     hdrBackBuffer := hdrBackBuffer p; reprojectBuffer := reprojectBuffer p;
     reprojectBackBuffer := reprojectBackBuffer p; gBuffer := gBuffer p;
     gBufferBack := gBufferBack p; lastToneMappedTexture := lastToneMappedTexture p;
     tileRender := tileRender p; previewSize := previewSize p; gl_objects := gl_objects p;
     random_draws := random_draws p |}.

Definition set_screenHeight (v : number) (p : Pipeline) : Pipeline :=
  {| ready := ready p; frameTime := frameTime p; elapsedFrameTime := elapsedFrameTime p;
     sampleTime := sampleTime p; sampleCount := sampleCount p;
     numPreviewsRendered := numPreviewsRendered p; firstFrame := firstFrame p;
     lastCamera := lastCamera p; screenWidth := screenWidth p; screenHeight := v;
     lastToneMappedScale := lastToneMappedScale p; hdrBuffer := hdrBuffer p;
     hdrBackBuffer := hdrBackBuffer p; reprojectBuffer := reprojectBuffer p;
     reprojectBackBuffer := reprojectBackBuffer p; gBuffer := gBuffer p;
     gBufferBack := gBufferBack p; lastToneMappedTexture := lastToneMappedTexture p;
     tileRender := tileRender p; previewSize := previewSize p; gl_objects := gl_objects p;
     random_draws := random_draws p |}.

Definition set_lastToneMappedScale (v : Vector2) (p : Pipeline) : Pipeline :=
  {| ready := ready p; frameTime := frameTime p; elapsedFrameTime := elapsedFrameTime p;
     sampleTime := sampleTime p; sampleCount := sampleCount p;
     numPreviewsRendered := numPreviewsRendered p; firstFrame := firstFrame p;
     lastCamera := lastCamera p; screenWidth := screenWidth p;
     screenHeight := screenHeight p; lastToneMappedScale := v; hdrBuffer := hdrBuffer p;
     hdrBackBuffer := hdrBackBuffer p; reprojectBuffer := reprojectBuffer p;
     reprojectBackBuffer := reprojectBackBuffer p; gBuffer := gBuffer p;
     gBufferBack := gBufferBack p; lastToneMappedTexture := lastToneMappedTexture p;
     tileRender := tileRender p; previewSize := previewSize p; gl_objects := gl_objects p;
     random_draws := random_draws p |}.

Definition set_hdrBuffer (v : option Framebuffer) (p : Pipeline) : Pipeline :=
  {| ready := ready p; frameTime := frameTime p; elapsedFrameTime := elapsedFrameTime p;
     sampleTime := sampleTime p; sampleCount := sampleCount p;
     numPreviewsRendered := numPreviewsRendered p; firstFrame := firstFrame p;
     lastCamera := lastCamera p; screenWidth := screenWidth p;
     screenHeight := screenHeight p; lastToneMappedScale := lastToneMappedScale p;
     hdrBuffer := v; hdrBackBuffer := hdrBackBuffer p;
     reprojectBuffer := reprojectBuffer p; reprojectBackBuffer := reprojectBackBuffer p;
     gBuffer := gBuffer p; gBufferBack := gBufferBack p;
     lastToneMappedTexture := lastToneMappedTexture p; tileRender := tileRender p;
     previewSize := previewSize p; gl_objects := gl_objects p;
     random_draws := random_draws p |}.

Definition set_hdrBackBuffer (v : option Framebuffer) (p : Pipeline) : Pipeline :=
  {| ready := ready p; frameTime := frameTime p; elapsedFrameTime := elapsedFrameTime p;
     sampleTime := sampleTime p; sampleCount := sampleCount p;
     numPreviewsRendered := numPreviewsRendered p; firstFrame := firstFrame p;
     lastCamera := lastCamera p; screenWidth := screenWidth p;
     screenHeight := screenHeight p; lastToneMappedScale := lastToneMappedScale p;
     hdrBuffer := hdrBuffer p; hdrBackBuffer := v; reprojectBuffer := reprojectBuffer p;
     reprojectBackBuffer := reprojectBackBuffer p; gBuffer := gBuffer p;
     gBufferBack := gBufferBack p; lastToneMappedTexture := lastToneMappedTexture p;
     tileRender := tileRender p; previewSize := previewSize p; gl_objects := gl_objects p;
     random_draws := random_draws p |}.

Definition set_reprojectBuffer (v : option Framebuffer) (p : Pipeline) : Pipeline :=
  {| ready := ready p; frameTime := frameTime p; elapsedFrameTime := elapsedFrameTime p;
     sampleTime := sampleTime p; sampleCount := sampleCount p;
     numPreviewsRendered := numPreviewsRendered p; firstFrame := firstFrame p;
     lastCamera := lastCamera p; screenWidth := screenWidth p;
     screenHeight := screenHeight p; lastToneMappedScale := lastToneMappedScale p;
     hdrBuffer := hdrBuffer p; hdrBackBuffer := hdrBackBuffer p; reprojectBuffer := v;
     reprojectBackBuffer := reprojectBackBuffer p; gBuffer := gBuffer p;
     gBufferBack := gBufferBack p; lastToneMappedTexture := lastToneMappedTexture p;
     tileRender := tileRender p; previewSize := previewSize p; gl_objects := gl_objects p;
     random_draws := random_draws p |}.

Definition set_reprojectBackBuffer (v : option Framebuffer) (p : Pipeline) : Pipeline :=
  {| ready := ready p; frameTime := frameTime p; elapsedFrameTime := elapsedFrameTime p;
     sampleTime := sampleTime p; sampleCount := sampleCount p;
     numPreviewsRendered := numPreviewsRendered p; firstFrame := firstFrame p;
     lastCamera := lastCamera p; screenWidth := screenWidth p;
     screenHeight := screenHeight p; lastToneMappedScale := lastToneMappedScale p;
     hdrBuffer := hdrBuffer p; hdrBackBuffer := hdrBackBuffer p;
     reprojectBuffer := reprojectBuffer p; reprojectBackBuffer := v; gBuffer := gBuffer p;
     gBufferBack := gBufferBack p; lastToneMappedTexture := lastToneMappedTexture p;
     tileRender := tileRender p; previewSize := previewSize p; gl_objects := gl_objects p;
     random_draws := random_draws p |}.

Definition set_gBuffer (v : option Framebuffer) (p : Pipeline) : Pipeline :=
  {| ready := ready p; frameTime := frameTime p; elapsedFrameTime := elapsedFrameTime p;
     sampleTime := sampleTime p; sampleCount := sampleCount p;
     numPreviewsRendered := numPreviewsRendered p; firstFrame := firstFrame p;
     lastCamera := lastCamera p; screenWidth := screenWidth p;
     screenHeight := screenHeight p; lastToneMappedScale := lastToneMappedScale p;
     hdrBuffer := hdrBuffer p; hdrBackBuffer := hdrBackBuffer p;
     reprojectBuffer := reprojectBuffer p; reprojectBackBuffer := reprojectBackBuffer p;
     gBuffer := v; gBufferBack := gBufferBack p;
     lastToneMappedTexture := lastToneMappedTexture p; tileRender := tileRender p;
     previewSize := previewSize p; gl_objects := gl_objects p;
     random_draws := random_draws p |}.

Definition set_gBufferBack (v : option Framebuffer) (p : Pipeline) : Pipeline :=
  {| ready := ready p; frameTime := frameTime p; elapsedFrameTime := elapsedFrameTime p;
     sampleTime := sampleTime p; sampleCount := sampleCount p;
     numPreviewsRendered := numPreviewsRendered p; firstFrame := firstFrame p;
     lastCamera := lastCamera p; screenWidth := screenWidth p;
     screenHeight := screenHeight p; lastToneMappedScale := lastToneMappedScale p;
     hdrBuffer := hdrBuffer p; hdrBackBuffer := hdrBackBuffer p;
     reprojectBuffer := reprojectBuffer p; reprojectBackBuffer := reprojectBackBuffer p;
     gBuffer := gBuffer p; gBufferBack := v;
     lastToneMappedTexture := lastToneMappedTexture p; tileRender := tileRender p;
     previewSize := previewSize p; gl_objects := gl_objects p;
     random_draws := random_draws p |}.

Definition set_lastToneMappedTexture (v : option Texture) (p : Pipeline) : Pipeline :=
  {| ready := ready p; frameTime := frameTime p; elapsedFrameTime := elapsedFrameTime p;
     sampleTime := sampleTime p; sampleCount := sampleCount p;
     numPreviewsRendered := numPreviewsRendered p; firstFrame := firstFrame p;
     lastCamera := lastCamera p; screenWidth := screenWidth p;
     screenHeight := screenHeight p; lastToneMappedScale := lastToneMappedScale p;
     hdrBuffer := hdrBuffer p; hdrBackBuffer := hdrBackBuffer p;
     reprojectBuffer := reprojectBuffer p; reprojectBackBuffer := reprojectBackBuffer p;
     gBuffer := gBuffer p; gBufferBack := gBufferBack p; lastToneMappedTexture := v;
     tileRender := tileRender p; previewSize := previewSize p; gl_objects := gl_objects p;
     random_draws := random_draws p |}.

Definition set_tileRender (v : TileState) (p : Pipeline) : Pipeline :=
  {| ready := ready p; frameTime := frameTime p; elapsedFrameTime := elapsedFrameTime p;
     sampleTime := sampleTime p; sampleCount := sampleCount p;
     numPreviewsRendered := numPreviewsRendered p; firstFrame := firstFrame p;
     lastCamera := lastCamera p; screenWidth := screenWidth p;
     screenHeight := screenHeight p; lastToneMappedScale := lastToneMappedScale p;
     hdrBuffer := hdrBuffer p; hdrBackBuffer := hdrBackBuffer p;
     reprojectBuffer := reprojectBuffer p; reprojectBackBuffer := reprojectBackBuffer p;
     gBuffer := gBuffer p; gBufferBack := gBufferBack p;
     lastToneMappedTexture := lastToneMappedTexture p; tileRender := v;
     previewSize := previewSize p; gl_objects := gl_objects p;
     random_draws := random_draws p |}.

Definition set_previewSize (v : SizeState) (p : Pipeline) : Pipeline :=
  {| ready := ready p; frameTime := frameTime p; elapsedFrameTime := elapsedFrameTime p;
     sampleTime := sampleTime p; sampleCount := sampleCount p;
     numPreviewsRendered := numPreviewsRendered p; firstFrame := firstFrame p;
     lastCamera := lastCamera p; screenWidth := screenWidth p;
     screenHeight := screenHeight p; lastToneMappedScale := lastToneMappedScale p;
     hdrBuffer := hdrBuffer p; hdrBackBuffer := hdrBackBuffer p;
     reprojectBuffer := reprojectBuffer p; reprojectBackBuffer := reprojectBackBuffer p;
     gBuffer := gBuffer p; gBufferBack := gBufferBack p;
     lastToneMappedTexture := lastToneMappedTexture p; tileRender := tileRender p;
     previewSize := v; gl_objects := gl_objects p; random_draws := random_draws p |}.

Definition set_gl_objects (v : nat) (p : Pipeline) : Pipeline :=
  {| ready := ready p; frameTime := frameTime p; elapsedFrameTime := elapsedFrameTime p;
     sampleTime := sampleTime p; sampleCount := sampleCount p;
     numPreviewsRendered := numPreviewsRendered p; firstFrame := firstFrame p;
     lastCamera := lastCamera p; screenWidth := screenWidth p;
     screenHeight := screenHeight p; lastToneMappedScale := lastToneMappedScale p;
     hdrBuffer := hdrBuffer p; hdrBackBuffer := hdrBackBuffer p;
     reprojectBuffer := reprojectBuffer p; reprojectBackBuffer := reprojectBackBuffer p;
     gBuffer := gBuffer p; gBufferBack := gBufferBack p;
     lastToneMappedTexture := lastToneMappedTexture p; tileRender := tileRender p;
     previewSize := previewSize p; gl_objects := v; random_draws := random_draws p |}.

Definition set_random_draws (v : nat) (p : Pipeline) : Pipeline :=
  {| ready := ready p; frameTime := frameTime p; elapsedFrameTime := elapsedFrameTime p;
     sampleTime := sampleTime p; sampleCount := sampleCount p;
     numPreviewsRendered := numPreviewsRendered p; firstFrame := firstFrame p;
     lastCamera := lastCamera p; screenWidth := screenWidth p;
     screenHeight := screenHeight p; lastToneMappedScale := lastToneMappedScale p;
     hdrBuffer := hdrBuffer p; hdrBackBuffer := hdrBackBuffer p;
     reprojectBuffer := reprojectBuffer p; reprojectBackBuffer := reprojectBackBuffer p;
     gBuffer := gBuffer p; gBufferBack := gBufferBack p;
     lastToneMappedTexture := lastToneMappedTexture p; tileRender := tileRender p;
     previewSize := previewSize p; gl_objects := gl_objects p; random_draws := v |}.

(** The fields the constructor sets and nothing reassigns. *)
Definition maxReprojectedSamples : Z := 20.
Definition numUniformSamples : Z := 4.
Definition strataCount : Z := 6.
Definition previewFramesBeforeBenchmark : Z := 2.
Definition fullscreenScale : Vector2 := {| vx := 1%float; vy := 1%float |}.

(** ** Computations over the pipeline *)

Inductive Error : Type := TypeError | ReferenceError.

Inductive Completion (A : Type) : Type :=
| Normal (value : A)
| Throw (error : Error).

Arguments Normal {A} value.
Arguments Throw {A} error.

(** The result of running a method: how it completed, the pipeline it
    left behind (an exception keeps the writes made before it), and the
    calls it issued, in order. *)
Record Run (A : Type) : Type := {
  completion : Completion A;
  after : Pipeline;
  issued : list Call
}.

Arguments completion {A} r.
Arguments after {A} r.
Arguments issued {A} r.

Definition M (A : Type) : Type := Pipeline -> Run A.

Definition ret {A : Type} (a : A) (p : Pipeline) : Run A :=
  {| completion := Normal a; after := p; issued := [] |}.

(** Going on after a first computation has run. *)
Definition andThen {A B : Type} (r : Run A) (k : A -> M B) : Run B :=
  match completion r with
  | Normal a =>
      let r' := k a (after r) in
      {| completion := completion r'; after := after r';
         issued := issued r ++ issued r' |}
  | Throw e => {| completion := Throw e; after := after r; issued := issued r |}
  end.

Definition bind {A B : Type} (m : M A) (k : A -> M B) (p : Pipeline) : Run B :=
  andThen (m p) k.

Notation "x <- m ;; k" := (bind m (fun x => k))
  (at level 61, m at next level, right associativity).
Notation "m ;; k" := (bind m (fun _ => k))
  (at level 61, right associativity).

Definition gets {A : Type} (field : Pipeline -> A) (p : Pipeline) : Run A :=
  {| completion := Normal (field p); after := p; issued := [] |}.

Definition modify (f : Pipeline -> Pipeline) (p : Pipeline) : Run unit :=
  {| completion := Normal tt; after := f p; issued := [] |}.

Definition call (c : Call) (p : Pipeline) : Run unit :=
  {| completion := Normal tt; after := p; issued := [c] |}.

Definition throw {A : Type} (e : Error) (p : Pipeline) : Run A :=
  {| completion := Throw e; after := p; issued := [] |}.

(** Reading a property of a value that may be [null]. *)
Definition deref {A : Type} (o : option A) : M A :=
  match o with
  | Some a => ret a
  | None => throw TypeError
  end.

Definition when (b : bool) (m : M unit) : M unit :=
  if b then m else ret tt.

(** ** Framebuffer.js *)

(** Reading the identifier [gl] inside [bindFramebuffer].  The function has
    no parameter of that name and the module declares and imports none, so
    the reference cannot be resolved.  ([unbindFramebuffer] reads [this.gl]
    instead.) *)
Definition unbound_gl : M unit := throw ReferenceError.

(** [this.gl.bindFramebuffer(gl.FRAMEBUFFER, this.framebuffer)]: the
    arguments are evaluated before the call is made, and the first one
    reads [gl]. *)
Definition bindFramebuffer (fb : nat) : M unit :=
  unbound_gl ;;
  call (gl_bindFramebuffer (Some fb)).

Definition unbindFramebuffer : M unit :=
  call (gl_bindFramebuffer None).

Definition createFramebuffer : M nat :=
  h <- gets gl_objects ;;
  modify (set_gl_objects (S h)) ;;
  call (gl_createFramebuffer h) ;;
  ret h.

(** The loop over the locations of [color].  The keys of [color] are
    numbers here, so the branch that logs an invalid location is never
    taken. *)
Fixpoint attachColors (color : list (N * Texture)) : M (list N) :=
  match color with
  | [] => ret []
  | (location, tex) :: rest =>
      call (gl_framebufferTexture2D (COLOR_ATTACHMENT0 + location) tex) ;;
      drawBuffers <- attachColors rest ;;
      ret ((COLOR_ATTACHMENT0 + location)%N :: drawBuffers)
  end.

Definition makeFramebuffer (color : list (N * Texture)) (depth : option DepthTarget)
  : M Framebuffer :=
  fb <- createFramebuffer ;;
  bindFramebuffer fb ;;
  drawBuffers <- attachColors color ;;
  call (gl_drawBuffers drawBuffers) ;;
  match depth with
  | Some d => call (gl_framebufferRenderbuffer d)
  | None => ret tt
  end ;;
  unbindFramebuffer ;;
  ret {| color := color; framebuffer := fb |}.

(** [buffer.bind()] and [buffer.unbind()] on a field that may be [null]. *)
Definition buffer_bind (buffer : option Framebuffer) : M unit :=
  b <- deref buffer ;;
  bindFramebuffer (framebuffer b).

Definition buffer_unbind (buffer : option Framebuffer) : M unit :=
  _ <- deref buffer ;;
  unbindFramebuffer.

(** [buffer.color[k]]. *)
Definition buffer_color (buffer : option Framebuffer) (k : N) : M (option Texture) :=
  b <- deref buffer ;;
  ret (obj_get (color b) k).

(** ** Texture.js *)

Definition makeTexture (options : TextureOptions) : M Texture :=
  h <- gets gl_objects ;;
  modify (set_gl_objects (S h)) ;;
  call (Texture_makeTexture {| texture := h |} options) ;;
  ret {| texture := h |}.

Definition makeDepthTarget (width height : number) : M DepthTarget :=
  h <- gets gl_objects ;;
  modify (set_gl_objects (S h)) ;;
  call (Texture_makeDepthTarget {| renderbuffer := h |} width height) ;;
  ret {| renderbuffer := h |}.

(** ** util.js *)

(** Modelled from the spec: [clamp] of [util.js], which is not among the
    sources, brings its first argument into the interval between the other
    two. *)
Definition clamp (x lo hi : number) : number :=
  if (x <? lo)%float then lo else if (hi <? x)%float then hi else x.

(** ** RenderingPipeline.js *)

(** The pipeline as the constructor leaves it.  [lastCamera] is a fresh
    [PerspectiveCamera] moved to (1, 1, 1). *)
Definition initialCamera : Camera :=
  {| matrixWorld := [1; 0; 0; 0;  0; 1; 0; 0;  0; 0; 1; 0;  1; 1; 1; 1]%float;
     fov := 50%float;
     aspect := 1%float |}.

Definition constructor : Pipeline :=
  {| ready := false;
     frameTime := None; elapsedFrameTime := None; sampleTime := None;
     sampleCount := 0; numPreviewsRendered := 0;
     firstFrame := true;
     lastCamera := initialCamera;
     screenWidth := 0%float; screenHeight := 0%float;
     lastToneMappedScale := fullscreenScale;
     hdrBuffer := None; hdrBackBuffer := None;
     reprojectBuffer := None; reprojectBackBuffer := None;
     gBuffer := None; gBufferBack := None;
     lastToneMappedTexture := None;
     tileRender := makeTileRender;
     previewSize := makeRenderSize;
     gl_objects := 0%nat; random_draws := 0%nat |}.

(** [noiseImage.onload]. *)
Definition onload : M unit :=
  call rayTracePass_setNoise ;;
  modify (set_ready true).

Definition initFrameBuffers (width height : number) : M unit :=
  let gBufferOutputLocs := gBufferOutputLocs env in
  let makeBuffer : M Framebuffer :=
    tex <- makeTexture {| opt_width := width; opt_height := height;
                          opt_storage := storage_float; opt_channels := None;
                          opt_linear := true |} ;;
    makeFramebuffer (obj_literal [(0%N, tex)]) None in
  b <- makeBuffer ;; modify (set_hdrBuffer (Some b)) ;;
  b <- makeBuffer ;; modify (set_hdrBackBuffer (Some b)) ;;
  b <- makeBuffer ;; modify (set_reprojectBuffer (Some b)) ;;
  b <- makeBuffer ;; modify (set_reprojectBackBuffer (Some b)) ;;
  normalBuffer <- makeTexture {| opt_width := width; opt_height := height;
                                 opt_storage := storage_halfFloat; opt_channels := None;
                                 opt_linear := false |} ;;
  faceNormalBuffer <- makeTexture {| opt_width := width; opt_height := height;
                                     opt_storage := storage_halfFloat; opt_channels := None;
                                     opt_linear := false |} ;;
  colorBuffer <- makeTexture {| opt_width := width; opt_height := height;
                                opt_storage := storage_byte; opt_channels := Some 3%nat;
                                opt_linear := false |} ;;
  matProps <- makeTexture {| opt_width := width; opt_height := height;
                             opt_storage := storage_byte; opt_channels := Some 2%nat;
                             opt_linear := false |} ;;
  depthTarget <- makeDepthTarget width height ;;
  let makeGBuffer : M Framebuffer :=
    positionBuffer <- makeTexture {| opt_width := width; opt_height := height;
                                     opt_storage := storage_float; opt_channels := None;
                                     opt_linear := false |} ;;
    makeFramebuffer
      (obj_literal [(loc_position gBufferOutputLocs, positionBuffer);
                    (loc_normal gBufferOutputLocs, normalBuffer);
                    (loc_faceNormal gBufferOutputLocs, faceNormalBuffer);
                    (loc_color gBufferOutputLocs, colorBuffer);
                    (loc_matProps gBufferOutputLocs, matProps)])
      (Some depthTarget) in
  b <- makeGBuffer ;; modify (set_gBuffer (Some b)) ;;
  b <- makeGBuffer ;; modify (set_gBufferBack (Some b)) ;;
  hdr <- gets hdrBuffer ;;
  tex <- buffer_color hdr (rayTrace_light env) ;;
  modify (set_lastToneMappedTexture tex).

Definition swapReprojectBuffer : M unit :=
  temp <- gets reprojectBuffer ;;
  back <- gets reprojectBackBuffer ;;
  modify (set_reprojectBuffer back) ;;
  modify (set_reprojectBackBuffer temp).

Definition swapGBuffer : M unit :=
  temp <- gets gBuffer ;;
  back <- gets gBufferBack ;;
  modify (set_gBuffer back) ;;
  modify (set_gBufferBack temp).

Definition swapHdrBuffer : M unit :=
  temp <- gets hdrBuffer ;;
  back <- gets hdrBackBuffer ;;
  modify (set_hdrBuffer back) ;;
  modify (set_hdrBackBuffer temp).

Definition swapBuffers : M unit :=
  swapReprojectBuffer ;;
  swapGBuffer ;;
  swapHdrBuffer.

Definition setSize (w h : number) : M unit :=
  modify (set_screenWidth w) ;;
  modify (set_screenHeight h) ;;
  call (tileRender_setSize w h) ;;
  modify (fun p => set_tileRender (TileRender_setSize w h (tileRender p)) p) ;;
  call (previewSize_setSize w h) ;;
  modify (fun p => set_previewSize (RenderSize_setSize w h (previewSize p)) p) ;;
  initFrameBuffers w h ;;
  modify (set_firstFrame true).

Definition time (newTime : number) : M unit :=
  frameTime <- gets frameTime ;;
  modify (set_elapsedFrameTime (Some (JS.sub (Some newTime) frameTime))) ;;
  modify (set_frameTime (Some newTime)).

Definition random : M number :=
  n <- gets random_draws ;;
  modify (set_random_draws (S n)) ;;
  ret (Math_random env n).

Definition updateSeed (width height : number) (useJitter : bool) : M unit :=
  call (rayTracePass_setSize width height) ;;
  jitterX <- (if useJitter
              then r <- random ;; ret ((r - 0.5) / width)%float
              else ret 0%float) ;;
  jitterY <- (if useJitter
              then r <- random ;; ret ((r - 0.5) / height)%float
              else ret 0%float) ;;
  call (gBufferPass_setJitter jitterX jitterY) ;;
  call (rayTracePass_setJitter jitterX jitterY) ;;
  call (reprojectPass_setJitter jitterX jitterY) ;;
  sampleCount <- gets sampleCount ;;
  if sampleCount =? 0 then
    call (rayTracePass_setStrataCount 1)
  else if sampleCount =? numUniformSamples then
    call (rayTracePass_setStrataCount strataCount)
  else
    call rayTracePass_nextSeed.

Definition clearBuffer (buffer : option Framebuffer) : M unit :=
  buffer_bind buffer ;;
  call (gl_clear true false) ;;
  buffer_unbind buffer.

Definition addSampleToBuffer (buffer : option Framebuffer) (width height : number) : M unit :=
  buffer_bind buffer ;;
  call gl_blendEquation_FUNC_ADD ;;
  call gl_blendFunc_ONE_ONE ;;
  call (gl_enable BLEND) ;;
  call (gl_viewport 0%float 0%float width height) ;;
  call rayTracePass_draw ;;
  call (gl_disable BLEND) ;;
  buffer_unbind buffer.

Definition newSampleToBuffer (buffer : option Framebuffer) (width height : number) : M unit :=
  buffer_bind buffer ;;
  call (gl_viewport 0%float 0%float width height) ;;
  call rayTracePass_draw ;;
  buffer_unbind buffer.

Definition toneMapToScreen (lightTexture : option Texture) (lightScale : Vector2) : M unit :=
  call (gl_viewport 0%float 0%float (drawingBufferWidth env) (drawingBufferHeight env)) ;;
  gBuffer <- gets gBuffer ;;
  position <- buffer_color gBuffer (loc_position (gBufferOutputLocs env)) ;;
  call (toneMapPass_draw {| tm_light := lightTexture;
                            tm_lightScale := lightScale;
                            tm_position := position |}) ;;
  modify (set_lastToneMappedTexture lightTexture) ;;
  modify (set_lastToneMappedScale (Vector2_clone lightScale)).

Definition renderGBuffer : M unit :=
  gBuffer <- gets gBuffer ;;
  b <- deref gBuffer ;;
  let gBufferColor := color b in
  let gBufferOutputLocs := gBufferOutputLocs env in
  buffer_bind gBuffer ;;
  call (gl_clear true true) ;;
  screenWidth <- gets screenWidth ;;
  screenHeight <- gets screenHeight ;;
  call (gl_viewport 0%float 0%float screenWidth screenHeight) ;;
  call gBufferPass_draw ;;
  buffer_unbind gBuffer ;;
  call (rayTracePass_setGBuffers
          {| gb_position := obj_get gBufferColor (loc_position gBufferOutputLocs);
             gb_normal := obj_get gBufferColor (loc_normal gBufferOutputLocs);
             gb_faceNormal := obj_get gBufferColor (loc_faceNormal gBufferOutputLocs);
             gb_color := obj_get gBufferColor (loc_color gBufferOutputLocs);
             gb_matProps := obj_get gBufferColor (loc_matProps gBufferOutputLocs) |}).

Definition renderTile (buffer : option Framebuffer) (x y width height : number) : M unit :=
  call (gl_scissor x y width height) ;;
  call (gl_enable SCISSOR_TEST) ;;
  screenWidth <- gets screenWidth ;;
  screenHeight <- gets screenHeight ;;
  addSampleToBuffer buffer screenWidth screenHeight ;;
  call (gl_disable SCISSOR_TEST).

(** Within the pipeline the second argument is always [this.lastCamera]. *)
Definition setCameras (camera : Camera) : M unit :=
  call (rayTracePass_setCamera camera) ;;
  call (gBufferPass_setCamera camera) ;;
  lastCamera <- gets lastCamera ;;
  call (reprojectPass_setPreviousCamera lastCamera) ;;
  modify (set_lastCamera (Camera_copy camera)).

Definition drawPreview : M unit :=
  sampleCount <- gets sampleCount ;;
  when (0 <? sampleCount) swapBuffers ;;
  numPreviewsRendered <- gets numPreviewsRendered ;;
  when (previewFramesBeforeBenchmark <=? numPreviewsRendered)
    (elapsed <- gets elapsedFrameTime ;;
     call (previewSize_adjustSize elapsed) ;;
     modify (fun p => set_previewSize (RenderSize_adjustSize elapsed (previewSize p)) p)) ;;
  size <- gets previewSize ;;
  updateSeed (RenderSize_width size) (RenderSize_height size) false ;;
  renderGBuffer ;;
  call rayTracePass_bindTextures ;;
  hdrBuffer <- gets hdrBuffer ;;
  newSampleToBuffer hdrBuffer (RenderSize_width size) (RenderSize_height size) ;;
  reprojectBuffer <- gets reprojectBuffer ;;
  buffer_bind reprojectBuffer ;;
  call (gl_viewport 0%float 0%float (RenderSize_width size) (RenderSize_height size)) ;;
  light <- buffer_color hdrBuffer 0%N ;;
  gBuffer <- gets gBuffer ;;
  position <- buffer_color gBuffer (loc_position (gBufferOutputLocs env)) ;;
  previousLight <- gets lastToneMappedTexture ;;
  previousLightScale <- gets lastToneMappedScale ;;
  gBufferBack <- gets gBufferBack ;;
  previousPosition <- buffer_color gBufferBack (loc_position (gBufferOutputLocs env)) ;;
  call (reprojectPass_draw {| blendAmount := 1%float;
                              light := light;
                              lightScale := RenderSize_scale size;
                              position := position;
                              previousLight := previousLight;
                              previousLightScale := previousLightScale;
                              previousPosition := previousPosition |}) ;;
  buffer_unbind reprojectBuffer ;;
  out <- buffer_color reprojectBuffer 0%N ;;
  toneMapToScreen out (RenderSize_scale size) ;;
  swapBuffers.

(** [clamp(1.0 - sampleCount / maxReprojectedSamples, 0, 1)], squared, in
    binary64. *)
Definition blendAmountFor (sampleCount : Z) : number :=
  let blendAmount :=
    clamp (1 - JS.of_Z sampleCount / JS.of_Z maxReprojectedSamples)%float 0%float 1%float in
  (blendAmount * blendAmount)%float.

Definition drawTile : M unit :=
  elapsed <- gets elapsedFrameTime ;;
  tiles <- gets tileRender ;;
  let tile := fst (TileRender_nextTile elapsed tiles) in
  modify (set_tileRender (snd (TileRender_nextTile elapsed tiles))) ;;
  call (tileRender_nextTile elapsed tile) ;;
  when (isFirstTile tile)
    (sampleCount <- gets sampleCount ;;
     (if sampleCount =? 0 then
        hdrBuffer <- gets hdrBuffer ;;
        clearBuffer hdrBuffer ;;
        lastCamera <- gets lastCamera ;;
        call (reprojectPass_setPreviousCamera lastCamera)
      else
        frameTime <- gets frameTime ;;
        sampleTime <- gets sampleTime ;;
        call (sampleRenderedCallback sampleCount (JS.or_NaN (JS.sub frameTime sampleTime))) ;;
        modify (set_sampleTime frameTime)) ;;
     screenWidth <- gets screenWidth ;;
     screenHeight <- gets screenHeight ;;
     updateSeed screenWidth screenHeight true ;;
     renderGBuffer ;;
     call rayTracePass_bindTextures) ;;
  hdrBuffer <- gets hdrBuffer ;;
  renderTile hdrBuffer (x tile) (y tile) (tileWidth tile) (tileHeight tile) ;;
  when (isLastTile tile)
    (modify (fun p => set_sampleCount (sampleCount p + 1) p) ;;
     sampleCount <- gets sampleCount ;;
     let blendAmount := blendAmountFor sampleCount in
     if (0 <? blendAmount)%float then
       reprojectBuffer <- gets reprojectBuffer ;;
       buffer_bind reprojectBuffer ;;
       screenWidth <- gets screenWidth ;;
       screenHeight <- gets screenHeight ;;
       call (gl_viewport 0%float 0%float screenWidth screenHeight) ;;
       light <- buffer_color hdrBuffer 0%N ;;
       gBuffer <- gets gBuffer ;;
       position <- buffer_color gBuffer (loc_position (gBufferOutputLocs env)) ;;
       reprojectBackBuffer <- gets reprojectBackBuffer ;;
       previousLight <- buffer_color reprojectBackBuffer 0%N ;;
       size <- gets previewSize ;;
       gBufferBack <- gets gBufferBack ;;
       previousPosition <- buffer_color gBufferBack (loc_position (gBufferOutputLocs env)) ;;
       call (reprojectPass_draw {| blendAmount := blendAmount;
                                   light := light;
                                   lightScale := fullscreenScale;
                                   position := position;
                                   previousLight := previousLight;
                                   previousLightScale := RenderSize_scale size;
                                   previousPosition := previousPosition |}) ;;
       buffer_unbind reprojectBuffer ;;
       out <- buffer_color reprojectBuffer 0%N ;;
       toneMapToScreen out fullscreenScale
     else
       light <- buffer_color hdrBuffer 0%N ;;
       toneMapToScreen light fullscreenScale).

Definition draw (camera : Camera) : M unit :=
  ready <- gets ready ;;
  if negb ready then ret tt else
  lastCamera <- gets lastCamera ;;
  if negb (areCamerasEqual camera lastCamera) then
    setCameras camera ;;
    firstFrame <- gets firstFrame ;;
    (if firstFrame then
       modify (set_firstFrame false)
     else
       drawPreview ;;
       modify (fun p => set_numPreviewsRendered (numPreviewsRendered p + 1) p)) ;;
    call tileRender_reset ;;
    modify (fun p => set_tileRender (TileRender_reset (tileRender p)) p) ;;
    modify (set_sampleCount 0)
  else
    drawTile ;;
    modify (set_numPreviewsRendered 0).

Definition drawFull (camera : Camera) : M unit :=
  ready <- gets ready ;;
  if negb ready then ret tt else
  swapGBuffer ;;
  swapReprojectBuffer ;;
  lastCamera <- gets lastCamera ;;
  (if negb (areCamerasEqual camera lastCamera) then
     modify (set_sampleCount 0) ;;
     hdrBuffer <- gets hdrBuffer ;;
     clearBuffer hdrBuffer
   else
     modify (fun p => set_sampleCount (sampleCount p + 1) p)) ;;
  setCameras camera ;;
  screenWidth <- gets screenWidth ;;
  screenHeight <- gets screenHeight ;;
  updateSeed screenWidth screenHeight true ;;
  renderGBuffer ;;
  call rayTracePass_bindTextures ;;
  hdrBuffer <- gets hdrBuffer ;;
  addSampleToBuffer hdrBuffer screenWidth screenHeight ;;
  reprojectBuffer <- gets reprojectBuffer ;;
  buffer_bind reprojectBuffer ;;
  call (gl_viewport 0%float 0%float screenWidth screenHeight) ;;
  light <- buffer_color hdrBuffer 0%N ;;
  gBuffer <- gets gBuffer ;;
  position <- buffer_color gBuffer (loc_position (gBufferOutputLocs env)) ;;
  previousLight <- gets lastToneMappedTexture ;;
  previousLightScale <- gets lastToneMappedScale ;;
  gBufferBack <- gets gBufferBack ;;
  previousPosition <- buffer_color gBufferBack (loc_position (gBufferOutputLocs env)) ;;
  call (reprojectPass_draw {| blendAmount := 1%float;
                              light := light;
                              lightScale := fullscreenScale;
                              position := position;
                              previousLight := previousLight;
                              previousLightScale := previousLightScale;
                              previousPosition := previousPosition |}) ;;
  buffer_unbind reprojectBuffer ;;
  out <- buffer_color reprojectBuffer 0%N ;;
  toneMapToScreen out fullscreenScale.

(** ** The object [makeRenderingPipeline] hands to the application *)

Definition getTotalSamplesRendered (p : Pipeline) : Z := sampleCount p.

(** What the application and the browser can do to the pipeline. *)
Inductive Request : Type :=
| do_onload
| do_setSize (w h : number)
| do_time (newTime : number)
| do_draw (camera : Camera)
| do_drawFull (camera : Camera).

Definition serve (r : Request) : M unit :=
  match r with
  | do_onload => onload
  | do_setSize w h => setSize w h
  | do_time newTime => time newTime
  | do_draw camera => draw camera
  | do_drawFull camera => drawFull camera
  end.

(** A session: requests served one after the other; a request that throws
    leaves the pipeline as it was at the throw and the next one goes on
    from there.  The result is the final pipeline and all calls issued. *)
Fixpoint session (rs : list Request) (p : Pipeline) : Pipeline * list Call :=
  match rs with
  | [] => (p, [])
  | r :: rest =>
      let run := serve r p in
      let (p', calls) := session rest (after run) in
      (p', issued run ++ calls)
  end.

End Orchestrator.

Arguments Normal {A} value.
Arguments Throw {A} error.
Arguments completion {TR RS A} r.
Arguments after {TR RS A} r.
Arguments issued {TR RS A} r.

(** ** Reading a list of calls *)

(** A call that makes the GPU write pixels. *)
Definition is_render (c : Call) : bool :=
  match c with
  | gl_clear _ _ | rayTracePass_draw | gBufferPass_draw
  | reprojectPass_draw _ | toneMapPass_draw _ => true
  | _ => false
  end.

(** The state of the WebGL context that decides where and how a render
    call writes. *)
Record Box : Type := {
  box_x : number;
  box_y : number;
  box_width : number;
  box_height : number
}.

Record GLState : Type := {
  bound : option nat;
  viewport : option Box;
  scissorBox : option Box;
  scissorTest : bool;
  blending : bool
}.

(** Nothing bound (so the display is the target), nothing enabled. *)
Definition gl_idle : GLState :=
  {| bound := None; viewport := None; scissorBox := None;
     scissorTest := false; blending := false |}.

Definition gl_step (c : Call) (g : GLState) : GLState :=
  match c with
  | gl_bindFramebuffer fb =>
      {| bound := fb; viewport := viewport g; scissorBox := scissorBox g;
         scissorTest := scissorTest g; blending := blending g |}
  | gl_viewport vx vy vw vh =>
      {| bound := bound g;
         viewport := Some {| box_x := vx; box_y := vy; box_width := vw; box_height := vh |};
         scissorBox := scissorBox g;
         scissorTest := scissorTest g; blending := blending g |}
  | gl_scissor sx sy sw sh =>
      {| bound := bound g; viewport := viewport g;
         scissorBox := Some {| box_x := sx; box_y := sy; box_width := sw; box_height := sh |};
         scissorTest := scissorTest g; blending := blending g |}
  | gl_enable SCISSOR_TEST =>
      {| bound := bound g; viewport := viewport g; scissorBox := scissorBox g;
         scissorTest := true; blending := blending g |}
  | gl_disable SCISSOR_TEST =>
      {| bound := bound g; viewport := viewport g; scissorBox := scissorBox g;
         scissorTest := false; blending := blending g |}
  | gl_enable BLEND =>
      {| bound := bound g; viewport := viewport g; scissorBox := scissorBox g;
         scissorTest := scissorTest g; blending := true |}
  | gl_disable BLEND =>
      {| bound := bound g; viewport := viewport g; scissorBox := scissorBox g;
         scissorTest := scissorTest g; blending := false |}
  | _ => g
  end.

(** Where a render call lands: the framebuffer bound ([None] is the
    display), the viewport, the scissor box if the scissor test is on, and
    whether the result is added to what is there. *)
Record Target : Type := {
  target : option nat;
  view : option Box;
  clip : option Box;
  additive : bool
}.

Definition targetOf (g : GLState) : Target :=
  {| target := bound g;
     view := viewport g;
     clip := if scissorTest g then scissorBox g else None;
     additive := blending g |}.

(** Every render call among [calls] with the target it lands on, the
    context being in state [g] before the first call. *)
Fixpoint renders (g : GLState) (calls : list Call) : list (Target * Call) :=
  match calls with
  | [] => []
  | c :: rest =>
      if is_render c then (targetOf g, c) :: renders g rest
      else renders (gl_step c g) rest
  end.

(** The state of the context after [calls]. *)
Definition gl_after (g : GLState) (calls : list Call) : GLState :=
  fold_left (fun g c => gl_step c g) calls g.

Fixpoint reprojections (calls : list Call) : list ReprojectArgs :=
  match calls with
  | [] => []
  | reprojectPass_draw args :: rest => args :: reprojections rest
  | _ :: rest => reprojections rest
  end.

Fixpoint toneMaps (calls : list Call) : list ToneMapArgs :=
  match calls with
  | [] => []
  | toneMapPass_draw args :: rest => args :: toneMaps rest
  | _ :: rest => toneMaps rest
  end.

(** The arguments of the sample-rendered notifications among the calls. *)
Fixpoint notifications (calls : list Call) : list (Z * number) :=
  match calls with
  | [] => []
  | sampleRenderedCallback i t :: rest => (i, t) :: notifications rest
  | _ :: rest => notifications rest
  end.

(** What the light-transport pass is told about its noise, and when it
    draws. *)
Inductive SeedStep : Type :=
| strata (n : Z)
| next_seed
| light_sample.

Fixpoint seedSchedule (calls : list Call) : list SeedStep :=
  match calls with
  | [] => []
  | rayTracePass_setStrataCount n :: rest => strata n :: seedSchedule rest
  | rayTracePass_nextSeed :: rest => next_seed :: seedSchedule rest
  | rayTracePass_draw :: rest => light_sample :: seedSchedule rest
  | _ :: rest => seedSchedule rest
  end.

(** All last tiles handed out, resets or not: no more sweeps than these can
    have completed. *)
Fixpoint sweepsCompleted (calls : list Call) : Z :=
  match calls with
  | [] => 0
  | tileRender_nextTile _ t :: rest =>
      (if isLastTile t then 1 else 0) + sweepsCompleted rest
  | _ :: rest => sweepsCompleted rest
  end.

(** ** Changing one scalar of a camera *)

Definition with_fov (v : number) (A : Camera) : Camera :=
  {| matrixWorld := matrixWorld A; fov := v; aspect := aspect A |}.

Definition with_aspect (v : number) (A : Camera) : Camera :=
  {| matrixWorld := matrixWorld A; fov := fov A; aspect := v |}.

Fixpoint replace_nth (i : nat) (v : number) (l : list number) : list number :=
  match l, i with
  | [], _ => []
  | _ :: rest, O => v :: rest
  | a :: rest, S j => a :: replace_nth j v rest
  end.

Definition with_element (i : nat) (v : number) (A : Camera) : Camera :=
  {| matrixWorld := replace_nth i v (matrixWorld A); fov := fov A; aspect := aspect A |}.

(** ** Stand-ins for the collaborators, used in the examples *)

(** Modelled from the spec: the Tile Scheduler ([TileRender.js] is not among
    the sources) partitions the full resolution into tiles, yields one per
    call and marks the first and the last tile of a sweep.  This one splits
    the screen into a left and a right half and does not adapt. *)
Record Halves : Type := {
  halves_width : number;
  halves_height : number;
  halves_second : bool
}.

Definition Halves_nextTile (elapsed : option number) (s : Halves) : Tile * Halves :=
  let half := (halves_width s / 2)%float in
  if halves_second s then
    ({| x := half; y := 0%float;
        tileWidth := (halves_width s - half)%float; tileHeight := halves_height s;
        isFirstTile := false; isLastTile := true |},
     {| halves_width := halves_width s; halves_height := halves_height s;
        halves_second := false |})
  else
    ({| x := 0%float; y := 0%float;
        tileWidth := half; tileHeight := halves_height s;
        isFirstTile := true; isLastTile := false |},
     {| halves_width := halves_width s; halves_height := halves_height s;
        halves_second := true |}).

#[local] Instance HalvesTileRender : TileRender := {|
  TileState := Halves;
  makeTileRender := {| halves_width := 0%float; halves_height := 0%float;
                       halves_second := false |};
  TileRender_setSize := fun w h _ =>
    {| halves_width := w; halves_height := h; halves_second := false |};
  TileRender_reset := fun s =>
    {| halves_width := halves_width s; halves_height := halves_height s;
       halves_second := false |};
  TileRender_nextTile := Halves_nextTile
|}.

(** Modelled from the spec: the Adaptive Preview Sizer ([RenderSize.js] is
    not among the sources) keeps a working resolution no larger than the
    full one, shrinking it when a frame ran over budget and growing it
    otherwise.  This one switches between full and half resolution around a
    budget of 20 ms. *)
Record FullOrHalf : Type := {
  cap_width : number;
  cap_height : number;
  halved : bool
}.

Definition FullOrHalf_factor (s : FullOrHalf) : number :=
  if halved s then 0.5%float else 1%float.

#[local] Instance FullOrHalfRenderSize : RenderSize := {|
  SizeState := FullOrHalf;
  makeRenderSize := {| cap_width := 0%float; cap_height := 0%float; halved := false |};
  RenderSize_setSize := fun w h _ =>
    {| cap_width := w; cap_height := h; halved := false |};
  RenderSize_adjustSize := fun elapsed s =>
    {| cap_width := cap_width s; cap_height := cap_height s;
       halved := PrimFloat.ltb 20%float (JS.to_number elapsed) |};
  RenderSize_width := fun s => (cap_width s * FullOrHalf_factor s)%float;
  RenderSize_height := fun s => (cap_height s * FullOrHalf_factor s)%float;
  RenderSize_scale := fun s => {| vx := FullOrHalf_factor s; vy := FullOrHalf_factor s |}
|}.

Definition exampleEnvironment : Environment :=
  {| Math_random := fun _ => 0.25%float;
     drawingBufferWidth := 800%float;
     drawingBufferHeight := 600%float;
     rayTrace_light := 0%N;
     gBufferOutputLocs := {| loc_position := 0%N; loc_normal := 1%N;
                             loc_faceNormal := 2%N; loc_color := 3%N;
                             loc_matProps := 4%N |} |}.

Definition camA : Camera :=
  {| matrixWorld := [1; 0; 0; 0;  0; 1; 0; 0;  0; 0; 1; 0;  0; 2; 5; 1]%float;
     fov := 45%float;
     aspect := (800 / 600)%float |}.

Definition camB : Camera := with_fov 60%float camA.

(** A camera whose aspect ratio was computed for an empty canvas, 0 / 0. *)
Definition camNaN : Camera := with_aspect (0 / 0)%float camA.

(** The pipeline of the examples: constructed, noise loaded, and
    [setSize(800, 600)] called on it. *)
Definition examplePipeline : Pipeline :=
  fst (session exampleEnvironment [do_onload; do_setSize 800%float 600%float] constructor).

(** The elapsed times handed to the tile scheduler and to the preview
    sizer. *)
Fixpoint elapsedObserved (calls : list Call) : list (option number) :=
  match calls with
  | [] => []
  | tileRender_nextTile e _ :: rest => e :: elapsedObserved rest
  | previewSize_adjustSize e :: rest => e :: elapsedObserved rest
  | _ :: rest => elapsedObserved rest
  end.

(** The step of the noise-seed schedule for a given sample count. *)
Definition seedFor (sampleCount : Z) : SeedStep :=
  if sampleCount =? 0 then strata 1
  else if sampleCount =? 4 then strata 6
  else next_seed.

Definition is_drawing (r : Request) : bool :=
  match r with
  | do_draw _ | do_drawFull _ => true
  | _ => false
  end.

(** A call that binds or unbinds a framebuffer. *)
Definition is_bind (c : Call) : bool :=
  match c with gl_bindFramebuffer _ => true | _ => false end.

(** A call that restarts the tile schedule. *)
Definition is_reset (c : Call) : bool :=
  match c with tileRender_reset => true | _ => false end.

(** A call that lets the preview sizer adapt. *)
Definition is_adjustSize (c : Call) : bool :=
  match c with previewSize_adjustSize _ => true | _ => false end.

(** What [buffer.bind()] throws: on a field that is still [null] the
    property access fails, on a framebuffer the body of [bindFramebuffer]
    does. *)
Definition bindError (buffer : option Framebuffer) : Error :=
  match buffer with
  | Some _ => ReferenceError
  | None => TypeError
  end.

(** The six buffer fields, front before back. *)
Definition buffers {TR : TileRender} {RS : RenderSize} (p : Pipeline)
  : list (option Framebuffer) :=
  [hdrBuffer p; hdrBackBuffer p; reprojectBuffer p; reprojectBackBuffer p;
   gBuffer p; gBufferBack p].

(** ** Running a computation step by step *)

(** [runs m p cs K]: running [m] from [p], after the calls [cs] were issued,
    ends in a completion, a pipeline and a list of calls that satisfy [K]. *)
Definition runs {TR : TileRender} {RS : RenderSize} {A : Type}
  (m : M A) (p : Pipeline) (cs : list Call)
  (K : Completion A -> Pipeline -> list Call -> Prop) : Prop :=
  K (completion (m p)) (after (m p)) (cs ++ issued (m p)).

(** A time-then-draw loop with a still camera: the first frame, then the
    two tiles of one sweep. *)
Definition stillFrames : list Request :=
  [do_time 1000; do_draw camA; do_time 1016; do_draw camA;
   do_time 1032; do_draw camA]%float.

(** The example pipeline after its first frame. *)
Definition trackingPipeline : Pipeline :=
  fst (session exampleEnvironment [do_time 1000%float; do_draw camA] examplePipeline).

(** The example pipeline when the second tile of the first sweep is due:
    the first frame and the first tile are behind it. *)
Definition lastTileDue : Pipeline :=
  fst (session exampleEnvironment
         [do_time 1000; do_draw camA; do_time 1016; do_draw camA; do_time 1032]%float
         examplePipeline).

(** The example pipeline after its first frame and one [drawFull] with the
    camera standing still. *)
Definition afterDrawFull : Pipeline :=
  fst (session exampleEnvironment [do_time 1016%float; do_drawFull camA] trackingPipeline).

(** The pipeline once the noise has loaded, before any other request. *)
Definition loadedPipeline : Pipeline :=
  fst (session exampleEnvironment [do_onload] constructor).

(** The example pipeline before it was ever sized: noise loaded, first frame
    drawn. *)
Definition unsizedPipeline : Pipeline :=
  fst (session exampleEnvironment [do_onload; do_draw camA] constructor).

(** ** Camera comparison *)

Lemma numberArraysEqual_Forall2 (a b : list number) :
  numberArraysEqual a b = true <-> Forall2 (fun x y => JS.strict_eq x y = true) a b.
Proof.
  revert b. induction a as [|x a IH]; intros [|y b]; simpl; split; intros H;
    try discriminate; try constructor; try solve [inversion H].
  - apply andb_true_iff in H. tauto.
  - apply IH. apply andb_true_iff in H. tauto.
  - inversion H; subst. apply andb_true_iff. split; [assumption|]. now apply IH.
Qed.

Lemma areCamerasEqual_iff (A B : Camera) :
  areCamerasEqual A B = true <-> numerically_equal A B.
Proof.
  unfold areCamerasEqual, numerically_equal.
  rewrite !andb_true_iff, numberArraysEqual_Forall2. tauto.
Qed.

Lemma strict_eq_refl (v : number) : JS.strict_eq v v = negb (JS.isNaN v).
Proof.
  unfold JS.strict_eq, JS.isNaN, PrimFloat.is_nan.
  now rewrite negb_involutive.
Qed.

Lemma numberArraysEqual_refl (a : list number) :
  numberArraysEqual a a = negb (existsb JS.isNaN a).
Proof.
  induction a as [|v a IH]; simpl; [reflexivity|].
  rewrite IH, strict_eq_refl, negb_orb. reflexivity.
Qed.

Lemma areCamerasEqual_refl (A : Camera) : areCamerasEqual A A = negb (has_NaN A).
Proof.
  unfold areCamerasEqual, has_NaN.
  rewrite numberArraysEqual_refl, !strict_eq_refl, !negb_orb.
  destruct (existsb JS.isNaN (matrixWorld A)), (JS.isNaN (fov A)), (JS.isNaN (aspect A));
    reflexivity.
Qed.

Lemma numberArraysEqual_replace (i : nat) (v : number) (a : list number) :
  (i < length a)%nat ->
  JS.strict_eq v (nth i a 0%float) = false ->
  numberArraysEqual (replace_nth i v a) a = false.
Proof.
  revert i. induction a as [|w a IH]; intros i Hi Hv; simpl in *; [lia|].
  destruct i as [|j]; simpl.
  - now rewrite Hv.
  - rewrite IH; [apply andb_false_r | lia | assumption].
Qed.

(** C2 (as stated, refuted): a camera whose aspect ratio is [NaN] is not equal
    to itself, so the test is not reflexive on every camera. *)
Lemma areCamerasEqual_not_reflexive :
  areCamerasEqual camNaN camNaN = false.
Proof. reflexivity. Qed.

(** C2 (amended): [areCamerasEqual A B] holds iff all matrix entries, the
    two fov values and the two aspect values are pairwise numerically equal;
    a camera equals itself exactly when none of its scalars is [NaN]; and
    replacing one scalar of a camera by a numerically different value makes
    the test against the original answer "changed". *)
Theorem areCamerasEqual_spec (A B : Camera) :
  (areCamerasEqual A B = true <-> numerically_equal A B) /\
  (areCamerasEqual A A = true <-> has_NaN A = false) /\
  (forall v, JS.strict_eq v (fov A) = false ->
             areCamerasEqual (with_fov v A) A = false) /\
  (forall v, JS.strict_eq v (aspect A) = false ->
             areCamerasEqual (with_aspect v A) A = false) /\
  (forall i v, (i < length (matrixWorld A))%nat ->
               JS.strict_eq v (nth i (matrixWorld A) 0%float) = false ->
               areCamerasEqual (with_element i v A) A = false).
Proof.
  split; [apply areCamerasEqual_iff|].
  split; [rewrite areCamerasEqual_refl; apply negb_true_iff|].
  repeat split; intros.
  - unfold areCamerasEqual, with_fov; simpl. rewrite H. apply andb_false_r.
  - unfold areCamerasEqual, with_aspect; simpl. rewrite H.
    now rewrite andb_false_r.
  - unfold areCamerasEqual, with_element; simpl.
    now rewrite numberArraysEqual_replace.
Qed.

(** The amended C2 at the cameras of the examples. *)
Lemma areCamerasEqual_spec_witness :
  areCamerasEqual camA camA = true /\
  areCamerasEqual camB camA = false /\
  areCamerasEqual (with_element 13 3%float camA) camA = false.
Proof.
  pose proof (areCamerasEqual_spec camA camA) as (_ & Hrefl & Hfov & _ & Helt).
  split; [apply Hrefl; reflexivity|].
  split; [apply Hfov; reflexivity|].
  apply Helt; [simpl; lia | reflexivity].
Defined.

(** ** Running computations *)

Section Running.

Context {TR : TileRender} {RS : RenderSize}.

Lemma runs_bind {A B : Type} (m : M A) (k : A -> M B) p cs K :
  runs m p cs (fun c p' cs' =>
    match c with
    | Normal a => runs (k a) p' cs' K
    | Throw e => K (Throw e) p' cs'
    end) ->
  runs (bind m k) p cs K.
Proof.
  unfold runs, bind, andThen. destruct (completion (m p)); simpl; [|trivial].
  now rewrite app_assoc.
Qed.

Lemma runs_gets {A : Type} (f : Pipeline -> A) p cs K :
  K (Normal (f p)) p cs -> runs (gets f) p cs K.
Proof. unfold runs; simpl. now rewrite app_nil_r. Qed.

Lemma runs_ret {A : Type} (a : A) p cs K :
  K (Normal a) p cs -> runs (ret a) p cs K.
Proof. unfold runs; simpl. now rewrite app_nil_r. Qed.

Lemma runs_throw {A : Type} e p cs (K : Completion A -> Pipeline -> list Call -> Prop) :
  K (Throw e) p cs -> runs (throw e) p cs K.
Proof. unfold runs; simpl. now rewrite app_nil_r. Qed.

Lemma runs_modify f p cs K :
  K (Normal tt) (f p) cs -> runs (modify f) p cs K.
Proof. unfold runs; simpl. now rewrite app_nil_r. Qed.

Lemma runs_call c p cs K :
  K (Normal tt) p (cs ++ [c]) -> runs (call c) p cs K.
Proof. unfold runs; simpl. trivial. Qed.

Lemma runs_eq {A : Type} (m : M A) p c p' cs :
  runs m p [] (fun c0 p0 cs0 => c0 = c /\ p0 = p' /\ cs0 = cs) ->
  m p = {| completion := c; after := p'; issued := cs |}.
Proof.
  unfold runs. destruct (m p) as [c0 p0 cs0]; simpl.
  intros (-> & -> & ->). reflexivity.
Qed.

Lemma runs_start {A : Type} (m : M A) p
  (K : Completion A -> Pipeline -> list Call -> Prop) :
  runs m p [] K -> K (completion (m p)) (after (m p)) (issued (m p)).
Proof. unfold runs. now rewrite app_nil_l. Qed.

End Running.

Ltac head_of t := lazymatch t with ?f _ => head_of f | _ => t end.

Ltac tidy := lazy beta iota zeta delta [fst snd negb
   x y tileWidth tileHeight isFirstTile isLastTile
   ready frameTime elapsedFrameTime sampleTime sampleCount numPreviewsRendered firstFrame
   lastCamera screenWidth screenHeight lastToneMappedScale hdrBuffer hdrBackBuffer
   reprojectBuffer reprojectBackBuffer gBuffer gBufferBack lastToneMappedTexture tileRender
   previewSize gl_objects random_draws
   set_ready set_frameTime set_elapsedFrameTime set_sampleTime set_sampleCount
   set_numPreviewsRendered set_firstFrame set_lastCamera set_screenWidth set_screenHeight
   set_lastToneMappedScale set_hdrBuffer set_hdrBackBuffer set_reprojectBuffer
   set_reprojectBackBuffer set_gBuffer set_gBufferBack set_lastToneMappedTexture
   set_tileRender set_previewSize set_gl_objects set_random_draws].

(** One step of running the computation at the head of the goal. *)
Ltac step :=
  lazymatch goal with
  | |- runs (bind _ _) _ _ _ => apply runs_bind
  | |- runs (gets _) _ _ _ => apply runs_gets; tidy
  | |- runs (ret _) _ _ _ => apply runs_ret; tidy
  | |- runs (throw _) _ _ _ => apply runs_throw; tidy
  | |- runs (modify _) _ _ _ => apply runs_modify; tidy
  | |- runs (call _) _ _ _ => apply runs_call; tidy
  | |- runs (if ?c then _ else _) _ _ _ => destruct c eqn:?
  | |- runs (match ?o with Some _ => _ | None => _ end) _ _ _ => destruct o eqn:?
  | |- runs (let _ := _ in _) _ _ _ => cbv zeta
  | |- runs ?m _ _ _ => let h := head_of m in unfold h
  end.

(** Put a goal about [m p] in the form [runs m p [] K]. *)
Ltac start :=
  match goal with
  | |- context [completion (?m ?p)] =>
      let r := fresh "r" in
      set (r := m p);
      pattern (completion r), (after r), (issued r);
      subst r;
      lazymatch goal with
      | |- ?K _ _ _ => refine (runs_start m p K _)
      end
  end.

Ltac open_pipeline p :=
  destruct p as [rdy ft eft st sc npr ff lc sw sh ltms hdr hdrBack rep repBack gb gbBack
                 ltmt tiles size glo rnd].

Ltac finish :=
  tidy; cbn [app]; cbn;
  unfold seedFor, numUniformSamples, strataCount, previewFramesBeforeBenchmark in *;
  cbn.

(** As [start], with the property to be shown kept folded while the
    computation is run. *)
Ltac start_at_issued :=
  match goal with
  | |- context [issued (?m ?p)] =>
      let r := fresh "r" in
      set (r := m p);
      pattern (completion r), (after r), (issued r);
      subst r;
      lazymatch goal with
      | |- ?K _ _ _ =>
          let post := fresh "post" in
          set (post := K); refine (runs_start m p post _)
      end
  end.

Section Facts.

Context {TR : TileRender} {RS : RenderSize}.
Variable env : Environment.

(** ** Running the helpers *)

(** [updateSeed] in one step. *)
Lemma runs_updateSeed w h (useJitter : bool) p cs K :
  K (Normal tt)
    (if useJitter then set_random_draws (S (S (random_draws p))) p else p)
    (cs ++
     [rayTracePass_setSize w h;
      gBufferPass_setJitter
        (if useJitter then ((Math_random env (random_draws p) - 0.5) / w)%float else 0%float)
        (if useJitter then ((Math_random env (S (random_draws p)) - 0.5) / h)%float
         else 0%float);
      rayTracePass_setJitter
        (if useJitter then ((Math_random env (random_draws p) - 0.5) / w)%float else 0%float)
        (if useJitter then ((Math_random env (S (random_draws p)) - 0.5) / h)%float
         else 0%float);
      reprojectPass_setJitter
        (if useJitter then ((Math_random env (random_draws p) - 0.5) / w)%float else 0%float)
        (if useJitter then ((Math_random env (S (random_draws p)) - 0.5) / h)%float
         else 0%float);
      if sampleCount p =? 0 then rayTracePass_setStrataCount 1
      else if sampleCount p =? numUniformSamples
           then rayTracePass_setStrataCount strataCount
           else rayTracePass_nextSeed]) ->
  runs (updateSeed env w h useJitter) p cs K.
Proof.
  open_pipeline p. cbn [random_draws sampleCount set_random_draws].
  intros HK. unfold updateSeed. destruct useJitter.
  all: repeat (step; tidy).
  all: tidy; rewrite <- ?app_assoc; cbn [app]; rewrite <- ?app_assoc in HK; cbn [app] in HK.
  all: repeat match goal with H : (_ =? _) = _ |- _ => rewrite H in HK end.
  all: exact HK.
Qed.

Ltac step' :=
  lazymatch goal with
  | |- runs (updateSeed _ _ _ _) _ _ _ => apply runs_updateSeed
  | _ => step
  end.

Ltac split_seed :=
  repeat match goal with
  | |- context [?a =? ?b] => destruct (a =? b)
  end.

Lemma swapBuffers_run p :
  swapBuffers p =
  {| completion := Normal tt;
     after := set_hdrBackBuffer (hdrBuffer p)
                (set_hdrBuffer (hdrBackBuffer p)
                   (set_gBufferBack (gBuffer p)
                      (set_gBuffer (gBufferBack p)
                         (set_reprojectBackBuffer (reprojectBuffer p)
                            (set_reprojectBuffer (reprojectBackBuffer p) p)))));
     issued := [] |}.
Proof.
  open_pipeline p. apply runs_eq. unfold swapBuffers.
  repeat step. repeat split.
Qed.

(** ** What each path of [draw] and [drawFull] does *)

(** The first frame: a changed camera while the first-frame flag is set. *)
Lemma draw_first_run p cam :
  ready p = true -> firstFrame p = true -> areCamerasEqual cam (lastCamera p) = false ->
  draw env cam p =
  {| completion := Normal tt;
     after := set_sampleCount 0
                (set_tileRender (TileRender_reset (tileRender p))
                   (set_firstFrame false (set_lastCamera (Camera_copy cam) p)));
     issued := [rayTracePass_setCamera cam; gBufferPass_setCamera cam;
                reprojectPass_setPreviousCamera (lastCamera p); tileRender_reset] |}.
Proof.
  intros Hr Hf Hc. open_pipeline p. cbn in Hr, Hf, Hc. subst.
  apply runs_eq. unfold draw. do 4 step. rewrite Hc. tidy.
  repeat step. tidy. cbn [app]. repeat split.
Qed.

(** The preview path: a changed camera after the first frame.  The run ends
    where [renderGBuffer] touches the G-buffer: with a [TypeError] if the
    field is [null], with the [ReferenceError] of [bind()] otherwise. *)
Lemma draw_preview_facts p cam :
  ready p = true -> firstFrame p = false ->
  areCamerasEqual cam (lastCamera p) = false ->
  let r := draw env cam p in
  let swap := 0 <? sampleCount p in
  let warm := previewFramesBeforeBenchmark <=? numPreviewsRendered p in
  completion r = Throw (bindError (if swap then gBufferBack p else gBuffer p)) /\
  after r =
    (let q := set_lastCamera (Camera_copy cam) p in
     let q := if swap then after (swapBuffers q) else q in
     if warm
     then set_previewSize (RenderSize_adjustSize (elapsedFrameTime p) (previewSize p)) q
     else q) /\
  seedSchedule (issued r) = [seedFor (sampleCount p)] /\
  notifications (issued r) = [] /\
  elapsedObserved (issued r) = (if warm then [elapsedFrameTime p] else []) /\
  existsb is_adjustSize (issued r) = warm /\
  existsb is_render (issued r) = false /\
  existsb is_bind (issued r) = false /\
  existsb is_reset (issued r) = false /\
  reprojections (issued r) = [] /\
  toneMaps (issued r) = [].
Proof.
  intros Hr Hf Hc. open_pipeline p. cbn in Hr, Hf, Hc. subst.
  cbn [sampleCount numPreviewsRendered gBuffer gBufferBack elapsedFrameTime previewSize].
  cbv zeta.
  destruct (0 <? sc) eqn:Hswap; destruct (previewFramesBeforeBenchmark <=? npr) eqn:Hwarm.
  all: destruct gb; destruct gbBack.
  all: start_at_issued; unfold draw; do 4 step; rewrite Hc; tidy.
  all: repeat (step'; try rewrite Hswap; try rewrite Hwarm; tidy).
  all: subst post; tidy; cbn [app]; unfold seedFor, numUniformSamples, strataCount; split_seed; cbn.
  all: repeat split.
Qed.

(** The tile path: an unchanged camera.  The run ends where a buffer is
    first touched: in [clearBuffer] for the first tile of a sweep at
    [sampleCount] 0, in [renderGBuffer] for the first tile otherwise, and
    in [addSampleToBuffer] for any later tile. *)
Lemma draw_tile_facts p cam :
  ready p = true -> areCamerasEqual cam (lastCamera p) = true ->
  let r := draw env cam p in
  let next := TileRender_nextTile (elapsedFrameTime p) (tileRender p) in
  let tile := fst next in
  let notify := isFirstTile tile && negb (sampleCount p =? 0) in
  completion r = Throw (bindError (if notify then gBuffer p else hdrBuffer p)) /\
  after r =
    (let q := set_tileRender (snd next) p in
     if notify
     then set_random_draws (S (S (random_draws p))) (set_sampleTime (frameTime p) q)
     else q) /\
  seedSchedule (issued r) = (if notify then [seedFor (sampleCount p)] else []) /\
  notifications (issued r) =
    (if notify
     then [(sampleCount p, JS.or_NaN (JS.sub (frameTime p) (sampleTime p)))]
     else []) /\
  elapsedObserved (issued r) = [elapsedFrameTime p] /\
  existsb is_adjustSize (issued r) = false /\
  existsb is_render (issued r) = false /\
  existsb is_bind (issued r) = false /\
  existsb is_reset (issued r) = false /\
  reprojections (issued r) = [] /\
  toneMaps (issued r) = [] /\
  scissorTest (gl_after gl_idle (issued r)) = negb (isFirstTile tile).
Proof.
  intros Hr Hc. open_pipeline p. cbn in Hr, Hc. subst.
  cbn [sampleCount tileRender elapsedFrameTime frameTime sampleTime gBuffer hdrBuffer
       random_draws].
  cbv zeta.
  destruct (TileRender_nextTile eft tiles) as [[tx ty tw th [|] lastT] tiles'] eqn:Htile.
  all: tidy.
  all: destruct (sc =? 0) eqn:Hsc.
  all: cbn [andb negb].
  all: destruct gb; destruct hdr.
  all: start_at_issued; unfold draw; do 4 step; rewrite Hc; tidy.
  all: do 7 step; rewrite Htile; tidy.
  all: repeat (step'; try rewrite Hsc; tidy).
  all: subst post; tidy; cbn [app]; unfold seedFor, numUniformSamples, strataCount;
    try rewrite Hsc; split_seed; cbn.
  all: repeat split.
Qed.

(** [drawFull]: the run ends in [clearBuffer] when the camera has changed
    and in [renderGBuffer] otherwise. *)
Lemma drawFull_facts p cam :
  ready p = true ->
  let r := drawFull env cam p in
  let same := areCamerasEqual cam (lastCamera p) in
  completion r = Throw (bindError (if same then gBufferBack p else hdrBuffer p)) /\
  after r =
    (let q := after (swapReprojectBuffer (after (swapGBuffer p))) in
     if same
     then set_random_draws (S (S (random_draws p)))
            (set_lastCamera (Camera_copy cam) (set_sampleCount (sampleCount p + 1) q))
     else set_sampleCount 0 q) /\
  seedSchedule (issued r) = (if same then [seedFor (sampleCount p + 1)] else []) /\
  notifications (issued r) = [] /\
  elapsedObserved (issued r) = [] /\
  existsb is_adjustSize (issued r) = false /\
  existsb is_render (issued r) = false /\
  existsb is_bind (issued r) = false /\
  existsb is_reset (issued r) = false /\
  reprojections (issued r) = [] /\
  toneMaps (issued r) = [].
Proof.
  intros Hr. open_pipeline p. cbn in Hr. subst.
  cbn [sampleCount lastCamera gBufferBack hdrBuffer random_draws]. cbv zeta.
  destruct (areCamerasEqual cam lc) eqn:Hc.
  all: destruct gbBack; destruct hdr.
  all: start_at_issued; unfold drawFull.
  all: repeat (step'; try rewrite Hc; tidy).
  all: subst post; tidy; cbn [app]; unfold seedFor, numUniformSamples, strataCount; split_seed; cbn.
  all: repeat split.
Qed.

(** [setSize] gets as far as the first [bind()] of the first framebuffer. *)
Lemma setSize_run p w h :
  setSize env w h p =
  {| completion := Throw ReferenceError;
     after := set_gl_objects (S (S (gl_objects p)))
                (set_previewSize (RenderSize_setSize w h (previewSize p))
                   (set_tileRender (TileRender_setSize w h (tileRender p))
                      (set_screenHeight h (set_screenWidth w p))));
     issued := [tileRender_setSize w h; previewSize_setSize w h;
                Texture_makeTexture {| texture := gl_objects p |}
                  {| opt_width := w; opt_height := h; opt_storage := storage_float;
                     opt_channels := None; opt_linear := true |};
                gl_createFramebuffer (S (gl_objects p))] |}.
Proof.
  open_pipeline p. apply runs_eq. unfold setSize, initFrameBuffers.
  repeat step. tidy. cbn [app]. repeat split.
Qed.

Lemma draw_not_ready_run p cam :
  ready p = false ->
  draw env cam p = {| completion := Normal tt; after := p; issued := [] |}.
Proof.
  intros Hr. open_pipeline p. cbn in Hr. subst.
  apply runs_eq. unfold draw. repeat step. repeat split.
Qed.

Lemma drawFull_not_ready_run p cam :
  ready p = false ->
  drawFull env cam p = {| completion := Normal tt; after := p; issued := [] |}.
Proof.
  intros Hr. open_pipeline p. cbn in Hr. subst.
  apply runs_eq. unfold drawFull. repeat step. repeat split.
Qed.

Lemma time_run p t :
  time t p =
  {| completion := Normal tt;
     after := set_frameTime (Some t)
                (set_elapsedFrameTime (Some (JS.sub (Some t) (frameTime p))) p);
     issued := [] |}.
Proof.
  open_pipeline p. apply runs_eq. unfold time. repeat step. repeat split.
Qed.

Lemma onload_run p :
  onload p =
  {| completion := Normal tt; after := set_ready true p;
     issued := [rayTracePass_setNoise] |}.
Proof.
  open_pipeline p. apply runs_eq. unfold onload. repeat step. repeat split.
Qed.

(** Subtracting a field that is still [null] leaves the number as it is. *)
Lemma sub_null (t : number) : JS.sub (Some t) None = t.
Proof.
  unfold JS.sub, JS.to_number. apply Prim2SF_inj. rewrite sub_spec.
  destruct (Prim2SF t) as [s | s | | s m e]; try reflexivity.
  destruct s; reflexivity.
Qed.

(** ** What no request does *)

(** What every request leaves alone: it draws nothing, binds nothing, and
    changes neither the preview count nor the six buffer fields other than
    by swapping them. *)
Lemma serve_quiet p r :
  existsb is_render (issued (serve env r p)) = false /\
  existsb is_bind (issued (serve env r p)) = false /\
  reprojections (issued (serve env r p)) = [] /\
  toneMaps (issued (serve env r p)) = [] /\
  numPreviewsRendered (after (serve env r p)) = numPreviewsRendered p /\
  lastToneMappedTexture (after (serve env r p)) = lastToneMappedTexture p /\
  (buffers p = [None; None; None; None; None; None] ->
   buffers (after (serve env r p)) = [None; None; None; None; None; None]) /\
  (numPreviewsRendered p < previewFramesBeforeBenchmark ->
   existsb is_adjustSize (issued (serve env r p)) = false).
Proof.
  destruct r as [| w h | t | cam | cam]; cbn [serve].
  - rewrite onload_run. open_pipeline p. repeat split; auto.
  - rewrite setSize_run. open_pipeline p. repeat split; auto.
  - rewrite time_run. open_pipeline p. repeat split; auto.
  - destruct (ready p) eqn:Hr.
    + destruct (areCamerasEqual cam (lastCamera p)) eqn:Hc.
      * pose proof (draw_tile_facts p cam Hr Hc) as F. cbv zeta in F.
        destruct F as (_ & Ha & _ & _ & _ & Hadj & Hren & Hb & _ & Hrep & Htm & _).
        rewrite Ha, Hren, Hb, Hrep, Htm, Hadj. clear.
        open_pipeline p. cbn [tileRender elapsedFrameTime random_draws frameTime].
        destruct (_ && _); repeat split; auto.
      * destruct (firstFrame p) eqn:Hf.
        -- rewrite (draw_first_run p cam Hr Hf Hc). clear. open_pipeline p.
           repeat split; auto.
        -- pose proof (draw_preview_facts p cam Hr Hf Hc) as F. cbv zeta in F.
           destruct F as (_ & Ha & _ & _ & _ & Hadj & Hren & Hb & _ & Hrep & Htm).
           rewrite Ha, Hren, Hb, Hrep, Htm, Hadj. clear.
           open_pipeline p. cbn [sampleCount numPreviewsRendered elapsedFrameTime previewSize].
           split; [reflexivity|]. split; [reflexivity|]. split; [reflexivity|].
           split; [reflexivity|].
           split; [destruct (0 <? sc), (_ <=? npr); reflexivity|].
           split; [destruct (0 <? sc), (_ <=? npr); reflexivity|].
           split.
           ++ unfold buffers. cbn. intros H. injection H as -> -> -> -> -> ->.
              destruct (0 <? sc), (_ <=? npr); reflexivity.
           ++ intros H. apply Z.leb_gt. exact H.
    + rewrite (draw_not_ready_run p cam Hr). repeat split; auto.
  - destruct (ready p) eqn:Hr.
    + pose proof (drawFull_facts p cam Hr) as F. cbv zeta in F.
      destruct F as (_ & Ha & _ & _ & _ & Hadj & Hren & Hb & _ & Hrep & Htm).
      rewrite Ha, Hren, Hb, Hrep, Htm, Hadj. clear.
      open_pipeline p. cbn [sampleCount lastCamera random_draws].
      split; [reflexivity|]. split; [reflexivity|]. split; [reflexivity|].
      split; [reflexivity|].
      split; [destruct (areCamerasEqual cam lc); reflexivity|].
      split; [destruct (areCamerasEqual cam lc); reflexivity|].
      split; [|reflexivity].
      unfold buffers. cbn. intros H. injection H as -> -> -> -> -> ->.
      destruct (areCamerasEqual cam lc); reflexivity.
    + rewrite (drawFull_not_ready_run p cam Hr). repeat split; auto.
Qed.

Lemma reprojections_app (a b : list Call) :
  reprojections (a ++ b) = reprojections a ++ reprojections b.
Proof.
  induction a as [|c a IH]; [reflexivity|].
  destruct c; cbn; rewrite ?IH; reflexivity.
Qed.

Lemma toneMaps_app (a b : list Call) :
  toneMaps (a ++ b) = toneMaps a ++ toneMaps b.
Proof.
  induction a as [|c a IH]; [reflexivity|].
  destruct c; cbn; rewrite ?IH; reflexivity.
Qed.

(** ** The claims *)

(** C1 (the code departs from the claim): a ready [draw] with an unchanged
    camera throws where it first touches a buffer (a [TypeError] on a
    [null] field, the [ReferenceError] of [bind()] otherwise), whatever
    tile it was handed, so [sampleCount] is not incremented on the last
    tile of a sweep; a ready [draw] with a changed camera that is not a
    first frame throws in [renderGBuffer] before [sampleCount] is set to 0.
    Only the first frame returns, leaving [sampleCount] at 0 and rendering
    nothing. *)
Theorem sampleCount_is_not_advanced p cam :
  ready p = true ->
  let r := draw env cam p in
  let tile := fst (TileRender_nextTile (elapsedFrameTime p) (tileRender p)) in
  (areCamerasEqual cam (lastCamera p) = true ->
   completion r =
     Throw (bindError (if isFirstTile tile && negb (sampleCount p =? 0)
                       then gBuffer p else hdrBuffer p)) /\
   sampleCount (after r) = sampleCount p) /\
  (areCamerasEqual cam (lastCamera p) = false -> firstFrame p = false ->
   completion r =
     Throw (bindError (if 0 <? sampleCount p then gBufferBack p else gBuffer p)) /\
   sampleCount (after r) = sampleCount p) /\
  (areCamerasEqual cam (lastCamera p) = false -> firstFrame p = true ->
   completion r = Normal tt /\
   sampleCount (after r) = 0 /\
   existsb is_render (issued r) = false).
Proof.
  intros Hr. cbv zeta. split; [|split].
  - intros Hc. pose proof (draw_tile_facts p cam Hr Hc) as F. cbv zeta in F.
    destruct F as (Hcompl & Ha & _).
    split; [exact Hcompl|].
    rewrite Ha. clear. open_pipeline p. cbn [tileRender elapsedFrameTime sampleCount].
    destruct (_ && _); reflexivity.
  - intros Hc Hf. pose proof (draw_preview_facts p cam Hr Hf Hc) as F. cbv zeta in F.
    destruct F as (Hcompl & Ha & _).
    split; [exact Hcompl|].
    rewrite Ha. clear. open_pipeline p. cbn [sampleCount numPreviewsRendered].
    destruct (0 <? sc), (_ <=? npr); reflexivity.
  - intros Hc Hf. rewrite (draw_first_run p cam Hr Hf Hc). repeat split.
Qed.

(** C3 (the code departs from the claim): a ready [draw] with an unchanged
    camera, the one that is handed the last tile of a sweep included,
    throws before it renders its tile, hence before [sampleCount] is
    incremented and the blend weight computed: neither the reprojection
    pass nor the tone-map pass is invoked, nothing is rendered, and the
    texture last tone-mapped stays what it was. *)
Theorem sweep_end_is_not_reached p cam :
  ready p = true -> areCamerasEqual cam (lastCamera p) = true ->
  let r := draw env cam p in
  let tile := fst (TileRender_nextTile (elapsedFrameTime p) (tileRender p)) in
  completion r =
    Throw (bindError (if isFirstTile tile && negb (sampleCount p =? 0)
                      then gBuffer p else hdrBuffer p)) /\
  reprojections (issued r) = [] /\
  toneMaps (issued r) = [] /\
  existsb is_render (issued r) = false /\
  sampleCount (after r) = sampleCount p /\
  lastToneMappedTexture (after r) = lastToneMappedTexture p.
Proof.
  intros Hr Hc. pose proof (draw_tile_facts p cam Hr Hc) as F. cbv zeta in F |- *.
  destruct F as (Hcompl & Ha & _ & _ & _ & _ & Hren & _ & _ & Hrep & Htm & _).
  split; [exact Hcompl|]. split; [exact Hrep|]. split; [exact Htm|]. split; [exact Hren|].
  rewrite Ha. clear. open_pipeline p.
  cbn [tileRender elapsedFrameTime sampleCount lastToneMappedTexture].
  destruct (_ && _); split; reflexivity.
Qed.

(** C5 (the code departs from the claim): a ready [drawFull] swaps the
    G-buffer pair and the reprojection pair, leaves the accumulation pair
    in place and sets [sampleCount] (0 for a changed camera, one more
    otherwise), and then throws where it first touches a buffer, in
    [clearBuffer] or in [renderGBuffer]: no buffer is cleared, neither the
    G-buffer nor a light sample is rendered, and the reprojection pass is
    not invoked. *)
Theorem drawFull_stops_before_rendering p cam :
  ready p = true ->
  let r := drawFull env cam p in
  let same := areCamerasEqual cam (lastCamera p) in
  completion r = Throw (bindError (if same then gBufferBack p else hdrBuffer p)) /\
  (gBuffer (after r) = gBufferBack p /\ gBufferBack (after r) = gBuffer p /\
   reprojectBuffer (after r) = reprojectBackBuffer p /\
   reprojectBackBuffer (after r) = reprojectBuffer p /\
   hdrBuffer (after r) = hdrBuffer p /\ hdrBackBuffer (after r) = hdrBackBuffer p) /\
  sampleCount (after r) = (if same then sampleCount p + 1 else 0) /\
  existsb is_render (issued r) = false /\
  reprojections (issued r) = [] /\
  toneMaps (issued r) = [].
Proof.
  intros Hr. pose proof (drawFull_facts p cam Hr) as F. cbv zeta in F |- *.
  destruct F as (Hcompl & Ha & _ & _ & _ & _ & Hren & _ & _ & Hrep & Htm).
  split; [exact Hcompl|]. rewrite Ha, Hren, Hrep, Htm. clear.
  open_pipeline p. cbn [lastCamera sampleCount random_draws].
  destruct (areCamerasEqual cam lc); repeat split.
Qed.

(** C6 (the code departs from the claim): [updateSeed] itself follows the
    rule (1 stratum at [sampleCount] 0, 6 strata at 4, the next seed
    otherwise), but no frame it is called for is rendered, and two of the
    frames do not get as far as calling it: the first tile of a sweep at
    [sampleCount] 0 and a [drawFull] with a changed camera throw in
    [clearBuffer] with the light-transport pass not configured at all.  No
    request ever draws a light sample. *)
Theorem noise_seed_is_not_applied :
  (forall p w h j,
     completion (updateSeed env w h j p) = Normal tt /\
     seedSchedule (issued (updateSeed env w h j p)) = [seedFor (sampleCount p)]) /\
  (forall p cam,
     ready p = true -> areCamerasEqual cam (lastCamera p) = true ->
     isFirstTile (fst (TileRender_nextTile (elapsedFrameTime p) (tileRender p))) = true ->
     sampleCount p = 0 ->
     completion (draw env cam p) = Throw (bindError (hdrBuffer p)) /\
     seedSchedule (issued (draw env cam p)) = []) /\
  (forall p cam,
     ready p = true -> areCamerasEqual cam (lastCamera p) = false ->
     completion (drawFull env cam p) = Throw (bindError (hdrBuffer p)) /\
     seedSchedule (issued (drawFull env cam p)) = []) /\
  (forall p r, existsb is_render (issued (serve env r p)) = false).
Proof.
  split; [|split; [|split]].
  - intros p w h j. open_pipeline p. cbn [sampleCount]. start. unfold updateSeed.
    destruct j.
    all: repeat (step; tidy).
    all: finish.
    all: repeat match goal with H : _ = _ |- _ => rewrite H end.
    all: repeat split.
  - intros p cam Hr Hc Hfirst H0.
    pose proof (draw_tile_facts p cam Hr Hc) as F. cbv zeta in F.
    rewrite Hfirst, H0 in F. cbn [andb negb Z.eqb] in F.
    destruct F as (Hcompl & _ & Hseed & _). split; assumption.
  - intros p cam Hr Hc.
    pose proof (drawFull_facts p cam Hr) as F. cbv zeta in F. rewrite Hc in F.
    destruct F as (Hcompl & _ & Hseed & _). split; assumption.
  - intros p r. apply serve_quiet.
Qed.

(** C7: while the readiness flag is unset, [draw] and [drawFull] return at
    once: they issue no call and leave the whole pipeline as it is, however
    often they are called; and the constructor leaves the flag unset. *)
Theorem not_ready_is_noop p :
  ready p = false ->
  ready constructor = false /\
  (forall cam, draw env cam p = {| completion := Normal tt; after := p; issued := [] |}) /\
  (forall cam, drawFull env cam p = {| completion := Normal tt; after := p; issued := [] |}) /\
  (forall rs, forallb is_drawing rs = true -> session env rs p = (p, [])).
Proof.
  intros Hr. split; [reflexivity|].
  split; [intros cam; now apply draw_not_ready_run|].
  split; [intros cam; now apply drawFull_not_ready_run|].
  induction rs as [|r rs IH]; [reflexivity|].
  cbn [forallb]. intros H. apply andb_true_iff in H. destruct H as [Hd Hrs].
  cbn [session].
  assert (Hrun : serve env r p = {| completion := Normal tt; after := p; issued := [] |}).
  { destruct r; try discriminate Hd; cbn [serve];
      [now apply draw_not_ready_run | now apply drawFull_not_ready_run]. }
  rewrite Hrun. cbn [after issued]. now rewrite (IH Hrs).
Qed.

(** C8 (amended): the sample-rendered callback is invoked by [draw] alone,
    and exactly when the pipeline is ready, the camera is unchanged, the
    tile handed out is the first of a sweep and [sampleCount] is not 0:
    then once, with [sampleCount] and [frameTime - sampleTime || NaN],
    after which [sampleTime] is [frameTime].  So it reports the count found
    when a sweep starts, also one that [drawFull] has raised, not a sweep
    that has just completed. *)
Theorem sample_notification p r :
  let notify :=
    match r with
    | do_draw cam =>
        ready p && areCamerasEqual cam (lastCamera p) &&
        isFirstTile (fst (TileRender_nextTile (elapsedFrameTime p) (tileRender p))) &&
        negb (sampleCount p =? 0)
    | _ => false
    end in
  notifications (issued (serve env r p)) =
    (if notify
     then [(sampleCount p, JS.or_NaN (JS.sub (frameTime p) (sampleTime p)))]
     else []) /\
  sampleTime (after (serve env r p)) = (if notify then frameTime p else sampleTime p).
Proof.
  cbv zeta. destruct r as [| w h | t | cam | cam]; cbn [serve].
  - rewrite onload_run. split; reflexivity.
  - rewrite setSize_run. split; reflexivity.
  - rewrite time_run. split; reflexivity.
  - destruct (ready p) eqn:Hr; cbn [andb].
    + destruct (areCamerasEqual cam (lastCamera p)) eqn:Hc; cbn [andb].
      * pose proof (draw_tile_facts p cam Hr Hc) as F. cbv zeta in F.
        destruct F as (_ & Ha & _ & Hn & _). split; [exact Hn|].
        rewrite Ha. clear. open_pipeline p.
        cbn [tileRender elapsedFrameTime sampleCount sampleTime frameTime].
        destruct (_ && _); reflexivity.
      * destruct (firstFrame p) eqn:Hf.
        -- rewrite (draw_first_run p cam Hr Hf Hc). split; reflexivity.
        -- pose proof (draw_preview_facts p cam Hr Hf Hc) as F. cbv zeta in F.
           destruct F as (_ & Ha & _ & Hn & _). split; [exact Hn|].
           rewrite Ha. clear. open_pipeline p. cbn [sampleCount numPreviewsRendered].
           destruct (0 <? sc), (_ <=? npr); reflexivity.
    + rewrite (draw_not_ready_run p cam Hr). split; reflexivity.
  - destruct (ready p) eqn:Hr.
    + pose proof (drawFull_facts p cam Hr) as F. cbv zeta in F.
      destruct F as (_ & Ha & _ & Hn & _). split; [exact Hn|].
      rewrite Ha. clear. open_pipeline p. cbn [lastCamera].
      destruct (areCamerasEqual cam lc); reflexivity.
    + rewrite (drawFull_not_ready_run p cam Hr). split; reflexivity.
Qed.

(** C9 (amended): [getTotalSamplesRendered] reads [sampleCount], which is
    not cumulative.  A ready [drawFull] sets it to 0 when the camera has
    changed and adds one otherwise; a ready [draw] with a changed camera
    leaves it at 0 whenever it returns; [time], [setSize] and the load of
    the noise leave it alone; and no request does anything to it but keep
    it, add one, or set it to 0. *)
Theorem totalSamplesRendered_steps p r :
  let before := getTotalSamplesRendered p in
  let result := getTotalSamplesRendered (after (serve env r p)) in
  before = sampleCount p /\
  (result = 0 \/ before <= result <= before + 1) /\
  match r with
  | do_drawFull cam =>
      result = if negb (ready p) then before
               else if areCamerasEqual cam (lastCamera p) then before + 1 else 0
  | do_draw cam =>
      ready p = true -> areCamerasEqual cam (lastCamera p) = false ->
      completion (serve env r p) = Normal tt -> result = 0
  | _ => result = before
  end.
Proof.
  cbv zeta. unfold getTotalSamplesRendered. split; [reflexivity|].
  destruct r as [| w h | t | cam | cam]; cbn [serve].
  - rewrite onload_run. split; [right; cbn; lia | reflexivity].
  - rewrite setSize_run. split; [right; cbn; lia | reflexivity].
  - rewrite time_run. split; [right; cbn; lia | reflexivity].
  - destruct (ready p) eqn:Hr.
    + destruct (areCamerasEqual cam (lastCamera p)) eqn:Hc.
      * pose proof (draw_tile_facts p cam Hr Hc) as F. cbv zeta in F.
        destruct F as (_ & Ha & _).
        assert (Hsc : sampleCount (after (draw env cam p)) = sampleCount p).
        { rewrite Ha. clear. open_pipeline p. cbn [tileRender elapsedFrameTime sampleCount].
          destruct (_ && _); reflexivity. }
        rewrite Hsc. split; [right; lia | discriminate].
      * destruct (firstFrame p) eqn:Hf.
        -- rewrite (draw_first_run p cam Hr Hf Hc). split; [left; reflexivity | reflexivity].
        -- pose proof (draw_preview_facts p cam Hr Hf Hc) as F. cbv zeta in F.
           destruct F as (Hcompl & Ha & _).
           assert (Hsc : sampleCount (after (draw env cam p)) = sampleCount p).
           { rewrite Ha. clear. open_pipeline p. cbn [sampleCount numPreviewsRendered].
             destruct (0 <? sc), (_ <=? npr); reflexivity. }
           rewrite Hsc, Hcompl. split; [right; lia | discriminate].
    + rewrite (draw_not_ready_run p cam Hr). split; [right; cbn; lia | discriminate].
  - destruct (ready p) eqn:Hr; cbn [negb].
    + pose proof (drawFull_facts p cam Hr) as F. cbv zeta in F.
      destruct F as (_ & Ha & _).
      assert (Hsc : sampleCount (after (drawFull env cam p)) =
                    if areCamerasEqual cam (lastCamera p) then sampleCount p + 1 else 0).
      { rewrite Ha. clear. open_pipeline p. cbn [lastCamera sampleCount].
        destruct (areCamerasEqual cam lc); reflexivity. }
      rewrite Hsc. split; [|reflexivity].
      destruct (areCamerasEqual cam (lastCamera p)); [right; lia | left; reflexivity].
    + rewrite (drawFull_not_ready_run p cam Hr). split; [right; cbn; lia | reflexivity].
Qed.

(** C4 (amended): the constructor sets the first-frame flag; a ready [draw]
    that finds the flag set and a camera different from the stored snapshot
    stores the camera, clears the flag, resets the tile schedule and
    [sampleCount] and returns without a render call and without touching a
    buffer.  The flag is looked at only after a camera change: a ready
    [draw] with an unchanged camera asks the tile scheduler for a tile
    instead of resetting it, and leaves the flag as it is. *)
Theorem first_frame_behaviour :
  firstFrame constructor = true /\
  (forall p cam,
     ready p = true -> firstFrame p = true ->
     areCamerasEqual cam (lastCamera p) = false ->
     let r := draw env cam p in
     completion r = Normal tt /\
     lastCamera (after r) = Camera_copy cam /\
     firstFrame (after r) = false /\
     tileRender (after r) = TileRender_reset (tileRender p) /\
     sampleCount (after r) = 0 /\
     existsb is_render (issued r) = false /\
     renders gl_idle (issued r) = [] /\
     buffers (after r) = buffers p) /\
  (forall p cam,
     ready p = true -> areCamerasEqual cam (lastCamera p) = true ->
     let r := draw env cam p in
     firstFrame (after r) = firstFrame p /\
     tileRender (after r) = snd (TileRender_nextTile (elapsedFrameTime p) (tileRender p)) /\
     elapsedObserved (issued r) = [elapsedFrameTime p] /\
     existsb is_reset (issued r) = false).
Proof.
  split; [reflexivity|]. split.
  - intros p cam Hr Hf Hc. cbv zeta. rewrite (draw_first_run p cam Hr Hf Hc).
    open_pipeline p. repeat split.
  - intros p cam Hr Hc.
    pose proof (draw_tile_facts p cam Hr Hc) as F. cbv zeta in F |- *.
    destruct F as (_ & Ha & _ & _ & He & _ & _ & _ & Hreset & _).
    rewrite Ha, He, Hreset. clear. open_pipeline p.
    cbn [tileRender elapsedFrameTime firstFrame].
    destruct (_ && _); repeat split.
Qed.

(** C10 (amended): [frameTime] starts as [null]; the first [time(t)] sets
    [elapsedFrameTime] to [t] itself and every later one to the difference
    of the two latest readings.  The tile scheduler is handed the raw
    reading only if a [draw] takes the tile path before [time] is called
    again; in a time-then-draw loop whose first draw is a first frame, that
    draw hands the reading to nobody, and the next one hands the scheduler
    the difference of the first two readings. *)
Theorem clock_first_reading :
  (frameTime constructor = None /\ elapsedFrameTime constructor = None) /\
  (forall p t,
     frameTime p = None ->
     elapsedFrameTime (after (time t p)) = Some t /\
     frameTime (after (time t p)) = Some t) /\
  (forall p t0 t,
     frameTime p = Some t0 ->
     elapsedFrameTime (after (time t p)) = Some (t - t0)%float /\
     frameTime (after (time t p)) = Some t) /\
  (forall p t cam,
     ready p = true -> frameTime p = None ->
     areCamerasEqual cam (lastCamera p) = true ->
     elapsedObserved (snd (session env [do_time t; do_draw cam] p)) = [Some t]) /\
  (forall p t1 t2 cam,
     ready p = true -> firstFrame p = true -> frameTime p = None ->
     areCamerasEqual cam (lastCamera p) = false -> areCamerasEqual cam cam = true ->
     existsb is_render (snd (session env [do_time t1; do_draw cam] p)) = false /\
     elapsedObserved (snd (session env [do_time t1; do_draw cam] p)) = [] /\
     elapsedObserved
       (snd (session env [do_time t1; do_draw cam; do_time t2; do_draw cam] p)) =
     [Some (t2 - t1)%float]).
Proof.
  split; [split; reflexivity|].
  split; [|split; [|split]].
  - intros p t Hft. rewrite time_run.
    cbn [after elapsedFrameTime frameTime set_frameTime set_elapsedFrameTime].
    rewrite Hft, sub_null. split; reflexivity.
  - intros p t0 t Hft. rewrite time_run.
    cbn [after elapsedFrameTime frameTime set_frameTime set_elapsedFrameTime].
    rewrite Hft. split; reflexivity.
  - intros p t cam Hr Hft Hc. cbn [session serve]. rewrite time_run.
    cbn [after issued].
    set (p1 := set_frameTime _ _).
    pose proof (draw_tile_facts p1 cam Hr Hc) as F. cbv zeta in F.
    destruct (draw env cam p1) as [c1 q1 cs1]. cbn [after issued completion] in *.
    cbn [fst snd app]. rewrite app_nil_r.
    destruct F as (_ & _ & _ & _ & He & _).
    rewrite He. subst p1.
    cbn [elapsedFrameTime set_frameTime set_elapsedFrameTime].
    now rewrite Hft, sub_null.
  - intros p t1 t2 cam Hr Hf Hft Hc Hrefl. cbn [session serve].
    rewrite !time_run. cbn [after issued].
    set (p1 := set_frameTime _ _).
    assert (Hrun : draw env cam p1 = _) by (apply (draw_first_run p1 cam Hr Hf Hc)).
    rewrite Hrun. cbn [after issued].
    set (p2 := set_frameTime (Some t2) _).
    assert (Hc2 : areCamerasEqual cam (lastCamera p2) = true) by exact Hrefl.
    pose proof (draw_tile_facts p2 cam Hr Hc2) as F. cbv zeta in F.
    destruct (draw env cam p2) as [c2 q2 cs2]. cbn [after issued completion] in *.
    cbn [fst snd app]. rewrite app_nil_r.
    destruct F as (_ & _ & _ & _ & He & _).
    split; [reflexivity|]. split; [reflexivity|]. cbn [elapsedObserved]. rewrite He. reflexivity.
Qed.

(** ** Beyond the claims: buffers and their creation *)

(** X1: [swapBuffers] exchanges front and back of all three pairs, issues
    no call, and undoes itself: swapping twice gives back the pipeline it
    started from, null buffers included. *)
Theorem swapBuffers_involutive p :
  completion (swapBuffers p) = Normal tt /\
  issued (swapBuffers p) = [] /\
  (hdrBuffer (after (swapBuffers p)) = hdrBackBuffer p /\
   hdrBackBuffer (after (swapBuffers p)) = hdrBuffer p /\
   reprojectBuffer (after (swapBuffers p)) = reprojectBackBuffer p /\
   reprojectBackBuffer (after (swapBuffers p)) = reprojectBuffer p /\
   gBuffer (after (swapBuffers p)) = gBufferBack p /\
   gBufferBack (after (swapBuffers p)) = gBuffer p) /\
  after (swapBuffers (after (swapBuffers p))) = p.
Proof.
  rewrite !swapBuffers_run. open_pipeline p. repeat split.
Qed.

(** X2: [bindFramebuffer] throws a [ReferenceError] without calling into the
    WebGL context, so [buffer.bind()] never binds anything: on a [null]
    field it is the property access that fails.  [makeFramebuffer]
    therefore creates a WebGL framebuffer and throws at once: no texture is
    attached, no draw buffer declared, and the framebuffer is handed to
    nobody. *)
Theorem makeFramebuffer_throws colors depth p :
  makeFramebuffer colors depth p =
    {| completion := Throw ReferenceError;
       after := set_gl_objects (S (gl_objects p)) p;
       issued := [gl_createFramebuffer (gl_objects p)] |} /\
  (forall fb,
     bindFramebuffer fb p =
       {| completion := Throw ReferenceError; after := p; issued := [] |}) /\
  (forall buffer,
     buffer_bind buffer p =
       {| completion := Throw (bindError buffer); after := p; issued := [] |}).
Proof.
  open_pipeline p. split; [|split].
  - apply runs_eq. unfold makeFramebuffer, createFramebuffer.
    cbn [gl_objects set_gl_objects].
    repeat step. tidy. cbn [app]. repeat split.
  - intros fb. apply runs_eq. repeat step. repeat split.
  - intros [b|]; apply runs_eq; unfold buffer_bind; repeat step; repeat split.
Qed.

(** X3: [updateSeed] sizes the light-transport pass and hands one and the
    same jitter to the G-buffer, light-transport and reprojection passes:
    without jitter it is (0, 0) and [Math.random] is not called; with
    jitter it is ((r0 - 0.5) / width, (r1 - 0.5) / height) for the next two
    random numbers, and exactly two are consumed. *)
Theorem updateSeed_jitter p w h useJitter :
  let r := updateSeed env w h useJitter p in
  let n := random_draws p in
  let jx := if useJitter then ((Math_random env n - 0.5) / w)%float else 0%float in
  let jy := if useJitter then ((Math_random env (S n) - 0.5) / h)%float else 0%float in
  completion r = Normal tt /\
  random_draws (after r) = (if useJitter then S (S n) else n) /\
  firstn 4 (issued r) =
    [rayTracePass_setSize w h; gBufferPass_setJitter jx jy;
     rayTracePass_setJitter jx jy; reprojectPass_setJitter jx jy] /\
  length (issued r) = 5%nat.
Proof.
  open_pipeline p. cbn [random_draws]. cbv zeta. start. unfold updateSeed.
  destruct useJitter.
  all: repeat (step; tidy).
  all: tidy; cbn [app firstn length]; repeat split.
Qed.

(** X13: [setSize] stores the size, passes it on to the tile scheduler and
    to the preview sizer, creates the texture and the framebuffer of the
    first accumulation buffer, and then throws a [ReferenceError] at that
    framebuffer's [bind()]: none of the six buffer fields is assigned, the
    texture last tone-mapped and the first-frame flag stay what they
    were. *)
Theorem setSize_stops_at_first_buffer p w h :
  let r := setSize env w h p in
  completion r = Throw ReferenceError /\
  (screenWidth (after r) = w /\ screenHeight (after r) = h) /\
  tileRender (after r) = TileRender_setSize w h (tileRender p) /\
  previewSize (after r) = RenderSize_setSize w h (previewSize p) /\
  buffers (after r) = buffers p /\
  lastToneMappedTexture (after r) = lastToneMappedTexture p /\
  firstFrame (after r) = firstFrame p /\
  gl_objects (after r) = S (S (gl_objects p)) /\
  issued r =
    [tileRender_setSize w h; previewSize_setSize w h;
     Texture_makeTexture {| texture := gl_objects p |}
       {| opt_width := w; opt_height := h; opt_storage := storage_float;
          opt_channels := None; opt_linear := true |};
     gl_createFramebuffer (S (gl_objects p))].
Proof.
  cbv zeta. rewrite setSize_run. open_pipeline p. repeat split.
Qed.

(** ** Beyond the claims: drawing before [setSize] *)

(** X7: while the six buffers are still [null], a
    ready [draw] that does not take the first-frame exit throws a
    [TypeError] before any render call.  On the tile path the tile
    scheduler has already advanced, [sampleCount] is unchanged, a due
    notification has already been sent, and a tile that is not the first of
    its sweep leaves the scissor test enabled.  On the preview path the
    camera snapshot has already been replaced while [sampleCount] and the
    tile schedule are not reset. *)
Theorem draw_before_setSize p cam :
  ready p = true ->
  [hdrBuffer p; hdrBackBuffer p; reprojectBuffer p; reprojectBackBuffer p;
   gBuffer p; gBufferBack p] = [None; None; None; None; None; None] ->
  let r := draw env cam p in
  let tile := fst (TileRender_nextTile (elapsedFrameTime p) (tileRender p)) in
  (areCamerasEqual cam (lastCamera p) = true ->
   completion r = Throw TypeError /\
   existsb is_render (issued r) = false /\
   sampleCount (after r) = sampleCount p /\
   tileRender (after r) = snd (TileRender_nextTile (elapsedFrameTime p) (tileRender p)) /\
   notifications (issued r) =
     (if isFirstTile tile && negb (sampleCount p =? 0)
      then [(sampleCount p, JS.or_NaN (JS.sub (frameTime p) (sampleTime p)))]
      else []) /\
   scissorTest (gl_after gl_idle (issued r)) = negb (isFirstTile tile)) /\
  (areCamerasEqual cam (lastCamera p) = false -> firstFrame p = false ->
   completion r = Throw TypeError /\
   existsb is_render (issued r) = false /\
   lastCamera (after r) = Camera_copy cam /\
   sampleCount (after r) = sampleCount p /\
   tileRender (after r) = tileRender p /\
   numPreviewsRendered (after r) = numPreviewsRendered p).
Proof.
  intros Hr Hnull. open_pipeline p. cbn in Hr, Hnull. injection Hnull as -> -> -> -> -> ->.
  subst.
  cbn [sampleCount numPreviewsRendered tileRender elapsedFrameTime frameTime sampleTime
       lastCamera firstFrame].
  cbv zeta. split.
  - intros Hc.
    destruct (TileRender_nextTile eft tiles) as [[tx ty tw th [|] lastT] tiles'] eqn:Htile.
    all: tidy.
    all: destruct (sc =? 0) eqn:Hsc.
    all: start_at_issued; unfold draw; do 4 step; rewrite Hc; tidy.
    all: do 7 step; rewrite Htile; tidy.
    all: repeat (step'; try rewrite Hsc; tidy).
    all: subst post; tidy; cbn [app]; try rewrite Hsc; split_seed; cbn.
    all: repeat split.
  - intros Hc Hf. subst.
    destruct (0 <? sc) eqn:Hswap; destruct (previewFramesBeforeBenchmark <=? npr) eqn:Hwarm.
    all: start_at_issued; unfold draw; do 4 step; rewrite Hc; tidy.
    all: repeat (step'; try rewrite Hswap; try rewrite Hwarm; tidy).
    all: subst post; tidy; cbn [app]; split_seed; cbn.
    all: repeat split.
Qed.

(** X8: while the buffers are still [null], a ready [drawFull] throws a
    [TypeError] before any render call, but not before it has changed
    [sampleCount]: a changed camera has set it to 0, an unchanged camera has
    added one for a sample that was never rendered and has stored the
    camera. *)
Theorem drawFull_before_setSize p cam :
  ready p = true ->
  [hdrBuffer p; hdrBackBuffer p; reprojectBuffer p; reprojectBackBuffer p;
   gBuffer p; gBufferBack p] = [None; None; None; None; None; None] ->
  let r := drawFull env cam p in
  let same := areCamerasEqual cam (lastCamera p) in
  completion r = Throw TypeError /\
  existsb is_render (issued r) = false /\
  sampleCount (after r) = (if same then sampleCount p + 1 else 0) /\
  lastCamera (after r) = (if same then Camera_copy cam else lastCamera p).
Proof.
  intros Hr Hnull. open_pipeline p. cbn in Hr, Hnull. injection Hnull as -> -> -> -> -> ->.
  subst.
  cbn [sampleCount lastCamera]. cbv zeta.
  destruct (areCamerasEqual cam lc) eqn:Hc.
  all: start_at_issued; unfold drawFull.
  all: repeat (step'; try rewrite Hc; tidy).
  all: subst post; tidy; cbn [app]; split_seed; cbn.
  all: repeat split.
Qed.

(** ** Beyond the claims: whole runs *)

Lemma existsb_app_false {A : Type} (f : A -> bool) (a b : list A) :
  existsb f a = false -> existsb f b = false -> existsb f (a ++ b) = false.
Proof. intros Ha Hb. now rewrite existsb_app, Ha, Hb. Qed.

(** X4: which requests return.  While the six buffers are [null], the load
    of the noise and [time] always return, [setSize] always throws a
    [ReferenceError], and a ready [draw] or [drawFull] throws a
    [TypeError] unless it is the first frame (a changed camera with the
    first-frame flag set), which returns. *)
Theorem which_requests_return p r :
  buffers p = [None; None; None; None; None; None] ->
  completion (serve env r p) =
    match r with
    | do_onload | do_time _ => Normal tt
    | do_setSize _ _ => Throw ReferenceError
    | do_draw cam =>
        if negb (ready p) || (negb (areCamerasEqual cam (lastCamera p)) && firstFrame p)
        then Normal tt else Throw TypeError
    | do_drawFull cam => if negb (ready p) then Normal tt else Throw TypeError
    end.
Proof.
  intros Hb. destruct r as [| w h | t | cam | cam]; cbn [serve].
  - now rewrite onload_run.
  - now rewrite setSize_run.
  - now rewrite time_run.
  - destruct (ready p) eqn:Hr; cbn [negb orb].
    + destruct (areCamerasEqual cam (lastCamera p)) eqn:Hc; cbn [negb andb].
      * pose proof (draw_tile_facts p cam Hr Hc) as F. cbv zeta in F.
        destruct F as (Hcompl & _). rewrite Hcompl.
        unfold buffers in Hb. injection Hb as Hhdr _ _ _ Hgb _. rewrite Hhdr, Hgb.
        destruct (_ && _); reflexivity.
      * destruct (firstFrame p) eqn:Hf.
        -- now rewrite (draw_first_run p cam Hr Hf Hc).
        -- pose proof (draw_preview_facts p cam Hr Hf Hc) as F. cbv zeta in F.
           destruct F as (Hcompl & _). rewrite Hcompl.
           unfold buffers in Hb. injection Hb as _ _ _ _ Hgb Hgbb. rewrite Hgb, Hgbb.
           destruct (0 <? _); reflexivity.
    + now rewrite (draw_not_ready_run p cam Hr).
  - destruct (ready p) eqn:Hr; cbn [negb].
    + pose proof (drawFull_facts p cam Hr) as F. cbv zeta in F.
      destruct F as (Hcompl & _). rewrite Hcompl.
      unfold buffers in Hb. injection Hb as Hhdr _ _ _ _ Hgbb. rewrite Hhdr, Hgbb.
      destruct (areCamerasEqual _ _); reflexivity.
    + now rewrite (drawFull_not_ready_run p cam Hr).
Qed.

(** X9: no request ever assigns a buffer: from a pipeline whose six buffer
    fields are [null], as the constructor leaves them, every run of
    requests, [setSize] included, ends with all six still [null] and with
    the texture last tone-mapped unchanged. *)
Theorem buffers_stay_null rs p :
  buffers p = [None; None; None; None; None; None] ->
  buffers (fst (session env rs p)) = [None; None; None; None; None; None] /\
  lastToneMappedTexture (fst (session env rs p)) = lastToneMappedTexture p.
Proof.
  revert p. induction rs as [|r rs IH]; intros p Hb; [split; [exact Hb | reflexivity]|].
  cbn [session].
  destruct (serve_quiet p r) as (_ & _ & _ & _ & _ & Ht & Hkeep & _).
  destruct (IH (after (serve env r p)) (Hkeep Hb)) as [IHb IHt].
  destruct (session env rs (after (serve env r p))) as [p' calls]. cbn [fst] in *.
  split; [exact IHb|]. now rewrite IHt.
Qed.

(** X10: nothing is ever rendered.  Whatever the pipeline and whatever the
    requests, a run issues no clear and no draw of any pass, binds or
    unbinds no framebuffer, and invokes neither the reprojection pass nor
    the tone-map pass. *)
Theorem nothing_is_ever_rendered rs p :
  existsb is_render (snd (session env rs p)) = false /\
  existsb is_bind (snd (session env rs p)) = false /\
  reprojections (snd (session env rs p)) = [] /\
  toneMaps (snd (session env rs p)) = [].
Proof.
  revert p. induction rs as [|r rs IH]; intros p; [repeat split|].
  cbn [session].
  destruct (serve_quiet p r) as (Hren & Hbind & Hrep & Htm & _).
  destruct (IH (after (serve env r p))) as (IHren & IHbind & IHrep & IHtm).
  destruct (session env rs (after (serve env r p))) as [p' calls]. cbn [snd] in *.
  split; [now apply existsb_app_false|].
  split; [now apply existsb_app_false|].
  split; [now rewrite reprojections_app, Hrep, IHrep|].
  now rewrite toneMaps_app, Htm, IHtm.
Qed.

(** X11: the count of previews never moves: [drawPreview] throws before
    [draw] increments it and [drawTile] throws before [draw] sets it to 0.
    So a pipeline that starts below the benchmark threshold, as the
    constructor leaves it, never lets the preview sizer adapt. *)
Theorem preview_count_never_moves rs p :
  numPreviewsRendered (fst (session env rs p)) = numPreviewsRendered p /\
  (numPreviewsRendered p < previewFramesBeforeBenchmark ->
   existsb is_adjustSize (snd (session env rs p)) = false).
Proof.
  revert p. induction rs as [|r rs IH]; intros p; [split; reflexivity|].
  cbn [session].
  destruct (serve_quiet p r) as (_ & _ & _ & _ & Hn & _ & _ & Hadj).
  destruct (IH (after (serve env r p))) as [IHn IHadj].
  destruct (session env rs (after (serve env r p))) as [p' calls]. cbn [fst snd] in *.
  split; [now rewrite IHn|].
  intros Hlt. apply existsb_app_false; [now apply Hadj|].
  apply IHadj. now rewrite Hn.
Qed.

End Facts.

(** ** The claims at the example pipeline *)

(** C1 at the example: the draw that is handed the last tile of the first
    sweep leaves [sampleCount] at 0, and a changed camera after a
    [drawFull] leaves it at 1; the first frame returns with 0. *)
Lemma sampleCount_is_not_advanced_witness :
  (isLastTile
     (fst (TileRender_nextTile (elapsedFrameTime lastTileDue) (tileRender lastTileDue))) =
   true /\
   sampleCount lastTileDue = 0) /\
  (completion (draw exampleEnvironment camA lastTileDue) = Throw TypeError /\
   sampleCount (after (draw exampleEnvironment camA lastTileDue)) = 0) /\
  (sampleCount afterDrawFull = 1 /\
   completion (draw exampleEnvironment camB afterDrawFull) = Throw TypeError /\
   sampleCount (after (draw exampleEnvironment camB afterDrawFull)) = 1) /\
  sampleCount (after (draw exampleEnvironment camA examplePipeline)) = 0.
Proof.
  pose proof (sampleCount_is_not_advanced exampleEnvironment lastTileDue camA eq_refl) as HA.
  pose proof (sampleCount_is_not_advanced exampleEnvironment afterDrawFull camB eq_refl) as HB.
  pose proof (sampleCount_is_not_advanced exampleEnvironment examplePipeline camA eq_refl)
    as HC.
  cbv zeta in HA, HB, HC.
  destruct HA as (HA & _ & _). destruct (HA eq_refl) as (HA1 & HA2).
  destruct HB as (_ & HB & _). destruct (HB eq_refl eq_refl) as (HB1 & HB2).
  destruct HC as (_ & _ & HC). destruct (HC eq_refl eq_refl) as (_ & HC2 & _).
  split; [split; reflexivity|].
  split; [split; [rewrite HA1; reflexivity | rewrite HA2; reflexivity]|].
  split; [|exact HC2].
  split; [reflexivity|]. split; [rewrite HB1; reflexivity | rewrite HB2; reflexivity].
Defined.

(** C3 at the example: the draw that is handed the last tile of the first
    sweep invokes neither pass. *)
Lemma sweep_end_is_not_reached_witness :
  isLastTile
    (fst (TileRender_nextTile (elapsedFrameTime lastTileDue) (tileRender lastTileDue))) =
  true /\
  completion (draw exampleEnvironment camA lastTileDue) = Throw TypeError /\
  reprojections (issued (draw exampleEnvironment camA lastTileDue)) = [] /\
  toneMaps (issued (draw exampleEnvironment camA lastTileDue)) = [].
Proof.
  pose proof (sweep_end_is_not_reached exampleEnvironment lastTileDue camA eq_refl eq_refl)
    as H.
  cbv zeta in H. destruct H as (H1 & H2 & H3 & _).
  split; [reflexivity|]. split; [rewrite H1; reflexivity|]. split; [exact H2 | exact H3].
Defined.

(** C5 at the example: [drawFull] after the first frame, with the camera
    standing still and with the camera moved. *)
Lemma drawFull_stops_before_rendering_witness :
  (completion (drawFull exampleEnvironment camA trackingPipeline) = Throw TypeError /\
   sampleCount (after (drawFull exampleEnvironment camA trackingPipeline)) = 1 /\
   existsb is_render (issued (drawFull exampleEnvironment camA trackingPipeline)) = false) /\
  (completion (drawFull exampleEnvironment camB trackingPipeline) = Throw TypeError /\
   sampleCount (after (drawFull exampleEnvironment camB trackingPipeline)) = 0 /\
   issued (drawFull exampleEnvironment camB trackingPipeline) = []).
Proof.
  pose proof (drawFull_stops_before_rendering exampleEnvironment trackingPipeline camA
                eq_refl) as HA.
  pose proof (drawFull_stops_before_rendering exampleEnvironment trackingPipeline camB
                eq_refl) as HB.
  cbv zeta in HA, HB.
  destruct HA as (HA1 & _ & HA2 & HA3 & _). destruct HB as (HB1 & _ & HB2 & _).
  split.
  - split; [rewrite HA1; reflexivity|]. split; [rewrite HA2; reflexivity | exact HA3].
  - split; [rewrite HB1; reflexivity|]. split; [rewrite HB2; reflexivity | reflexivity].
Defined.

(** C6 at the example: the first tile after the first frame, at
    [sampleCount] 0, and a [drawFull] with the camera moved configure no
    seed and draw no sample. *)
Lemma noise_seed_is_not_applied_witness :
  (sampleCount trackingPipeline = 0 /\
   isFirstTile
     (fst (TileRender_nextTile (elapsedFrameTime trackingPipeline)
             (tileRender trackingPipeline))) = true) /\
  seedSchedule (issued (draw exampleEnvironment camA trackingPipeline)) = [] /\
  seedSchedule (issued (drawFull exampleEnvironment camB trackingPipeline)) = [] /\
  seedSchedule (issued (updateSeed exampleEnvironment 800%float 600%float true afterDrawFull)) =
    [next_seed].
Proof.
  destruct (noise_seed_is_not_applied exampleEnvironment) as (H1 & H2 & H3 & _).
  split; [split; reflexivity|].
  split; [apply (H2 trackingPipeline camA); reflexivity|].
  split; [apply (H3 trackingPipeline camB); reflexivity|].
  destruct (H1 afterDrawFull 800%float 600%float true) as [_ H]. rewrite H. reflexivity.
Defined.

(** C7 at the example: before the noise has loaded nothing happens. *)
Lemma not_ready_is_noop_witness :
  draw exampleEnvironment camA constructor =
    {| completion := Normal tt; after := constructor; issued := [] |} /\
  session exampleEnvironment [do_draw camA; do_drawFull camB; do_draw camA] constructor =
    (constructor, []).
Proof.
  destruct (not_ready_is_noop exampleEnvironment constructor eq_refl) as (_ & H1 & _ & H3).
  split; [apply H1 | apply H3; reflexivity].
Defined.

(** C4 (as stated, refuted): the very first ready [draw], made with a camera
    that equals the snapshot the constructor stored, does not behave as a
    first frame: it asks the tile scheduler for a tile instead of resetting
    it, and throws instead of returning. *)
Lemma first_draw_takes_the_tile_path :
  (ready loadedPipeline = true /\ firstFrame loadedPipeline = true) /\
  completion (draw exampleEnvironment initialCamera loadedPipeline) = Throw TypeError /\
  elapsedObserved (issued (draw exampleEnvironment initialCamera loadedPipeline)) = [None] /\
  existsb is_reset (issued (draw exampleEnvironment initialCamera loadedPipeline)) = false /\
  tileRender (after (draw exampleEnvironment initialCamera loadedPipeline)) =
    snd (TileRender_nextTile None (tileRender loadedPipeline)).
Proof. repeat split. Qed.

(** The amended C4 at the example: the first frame, and the draw that
    follows it with the camera standing still. *)
Lemma first_frame_behaviour_witness :
  (completion (draw exampleEnvironment camA examplePipeline) = Normal tt /\
   firstFrame (after (draw exampleEnvironment camA examplePipeline)) = false /\
   renders gl_idle (issued (draw exampleEnvironment camA examplePipeline)) = []) /\
  (firstFrame (after (draw exampleEnvironment initialCamera loadedPipeline)) = true /\
   existsb is_reset (issued (draw exampleEnvironment initialCamera loadedPipeline)) = false).
Proof.
  destruct (first_frame_behaviour exampleEnvironment) as (_ & H1 & H2).
  pose proof (H1 examplePipeline camA eq_refl eq_refl eq_refl) as F1.
  pose proof (H2 loadedPipeline initialCamera eq_refl eq_refl) as F2.
  cbv zeta in F1, F2.
  destruct F1 as (F11 & _ & F12 & _ & _ & _ & F13 & _).
  destruct F2 as (F21 & _ & _ & F22).
  split; [split; [exact F11 | split; [exact F12 | exact F13]]|].
  split; [rewrite F21; reflexivity | exact F22].
Defined.

(** C8 (as stated, refuted): with the camera standing still, the first frame
    and one [drawFull] are followed by the first tile of the first sweep.
    No last tile has been handed out, so no sweep can have completed, and
    yet sample 1 is notified, with the clock reading as its elapsed
    time. *)
Lemma notification_without_completed_sweep :
  sweepsCompleted
    (snd (session exampleEnvironment
            [do_time 1000; do_draw camA; do_time 1016; do_drawFull camA;
             do_time 1032; do_draw camA]%float examplePipeline)) = 0 /\
  notifications
    (snd (session exampleEnvironment
            [do_time 1000; do_draw camA; do_time 1016; do_drawFull camA;
             do_time 1032; do_draw camA]%float examplePipeline)) = [(1, 1032%float)].
Proof. split; reflexivity. Qed.

(** The amended C8 at the example: after a [drawFull] the first tile of a
    sweep notifies sample 1; a [draw] with the camera moved notifies
    nothing. *)
Lemma sample_notification_witness :
  notifications (issued (serve exampleEnvironment (do_draw camA) afterDrawFull)) =
    [(1, 1016%float)] /\
  notifications (issued (serve exampleEnvironment (do_draw camB) afterDrawFull)) = [] /\
  notifications (issued (serve exampleEnvironment (do_drawFull camA) afterDrawFull)) = [].
Proof.
  pose proof (sample_notification exampleEnvironment afterDrawFull (do_draw camA)) as HA.
  pose proof (sample_notification exampleEnvironment afterDrawFull (do_draw camB)) as HB.
  pose proof (sample_notification exampleEnvironment afterDrawFull (do_drawFull camA)) as HC.
  cbv zeta in HA, HB, HC. destruct HA as [HA _]. destruct HB as [HB _]. destruct HC as [HC _].
  rewrite HA, HB, HC. repeat split.
Defined.

(** C9 (as stated, refuted): the counter reads 1 after a [drawFull] with the
    camera standing still and 0 after the next one, whose camera has
    moved. *)
Lemma totalSamplesRendered_decreases :
  getTotalSamplesRendered afterDrawFull = 1 /\
  getTotalSamplesRendered
    (after (serve exampleEnvironment (do_drawFull camB) afterDrawFull)) = 0.
Proof. split; reflexivity. Qed.

(** The amended C9 at the example. *)
Lemma totalSamplesRendered_steps_witness :
  getTotalSamplesRendered
    (after (serve exampleEnvironment (do_drawFull camB) afterDrawFull)) = 0 /\
  getTotalSamplesRendered
    (after (serve exampleEnvironment (do_drawFull camA) afterDrawFull)) = 2 /\
  getTotalSamplesRendered
    (after (serve exampleEnvironment (do_time 5%float) afterDrawFull)) = 1 /\
  getTotalSamplesRendered
    (after (serve exampleEnvironment (do_draw camA) examplePipeline)) = 0.
Proof.
  pose proof (totalSamplesRendered_steps exampleEnvironment afterDrawFull (do_drawFull camB))
    as HB.
  pose proof (totalSamplesRendered_steps exampleEnvironment afterDrawFull (do_drawFull camA))
    as HA.
  pose proof (totalSamplesRendered_steps exampleEnvironment afterDrawFull (do_time 5%float))
    as HT.
  pose proof (totalSamplesRendered_steps exampleEnvironment examplePipeline (do_draw camA))
    as HD.
  cbv zeta in HB, HA, HT, HD.
  destruct HB as (_ & _ & HB). destruct HA as (_ & _ & HA). destruct HT as (_ & _ & HT).
  destruct HD as (_ & _ & HD).
  split; [rewrite HB; reflexivity|]. split; [rewrite HA; reflexivity|].
  split; [rewrite HT; reflexivity|]. apply HD; reflexivity.
Defined.

(** C10 (as stated, refuted): in the time-then-draw loop the first draw,
    made when the elapsed time is the raw reading 1000, hands it to nobody;
    the first value the tile scheduler is handed is 16, the difference of
    the first two readings. *)
Lemma first_tile_sees_delta :
  elapsedFrameTime (after (time 1000%float examplePipeline)) = Some 1000%float /\
  elapsedObserved
    (snd (session exampleEnvironment [do_time 1000%float; do_draw camA] examplePipeline)) =
    [] /\
  elapsedObserved
    (snd (session exampleEnvironment
            [do_time 1000; do_draw camA; do_time 1016; do_draw camA]%float
            examplePipeline)) = [Some 16%float].
Proof. repeat split. Qed.

(** The amended C10 at the example. *)
Lemma clock_first_reading_witness :
  elapsedFrameTime (after (time 1000%float examplePipeline)) = Some 1000%float /\
  elapsedFrameTime (after (time 1016%float trackingPipeline)) = Some 16%float /\
  elapsedObserved
    (snd (session exampleEnvironment
            [do_time 1000; do_draw camA; do_time 1016; do_draw camA]%float
            examplePipeline)) = [Some 16%float] /\
  elapsedObserved
    (snd (session exampleEnvironment [do_time 7%float; do_draw initialCamera]
            examplePipeline)) = [Some 7%float].
Proof.
  destruct (clock_first_reading exampleEnvironment) as (_ & H1 & H2 & H3 & H4).
  split; [apply (H1 examplePipeline); reflexivity|].
  split; [apply (H2 trackingPipeline 1000%float); reflexivity|].
  split.
  - apply (H4 examplePipeline 1000%float 1016%float camA); reflexivity.
  - apply (H3 examplePipeline 7%float initialCamera); reflexivity.
Defined.

(** ** The further properties at the example pipeline *)

Lemma draw_before_setSize_witness :
  completion (draw exampleEnvironment camA unsizedPipeline) = Throw TypeError /\
  completion (draw exampleEnvironment camB unsizedPipeline) = Throw TypeError /\
  lastCamera (after (draw exampleEnvironment camB unsizedPipeline)) = Camera_copy camB.
Proof.
  pose proof (draw_before_setSize exampleEnvironment unsizedPipeline camA eq_refl eq_refl)
    as HA.
  pose proof (draw_before_setSize exampleEnvironment unsizedPipeline camB eq_refl eq_refl)
    as HB.
  cbv zeta in HA, HB. destruct HA as [HA _]. destruct HB as [_ HB].
  split; [apply HA; reflexivity|].
  destruct (HB eq_refl eq_refl) as (H1 & _ & H3 & _). split; [exact H1 | exact H3].
Defined.

Lemma drawFull_before_setSize_witness :
  completion (drawFull exampleEnvironment camA unsizedPipeline) = Throw TypeError /\
  sampleCount (after (drawFull exampleEnvironment camA unsizedPipeline)) = 1.
Proof.
  pose proof (drawFull_before_setSize exampleEnvironment unsizedPipeline camA eq_refl
                eq_refl) as H.
  cbv zeta in H. destruct H as (H1 & _ & H3 & _).
  split; [exact H1|]. rewrite H3. vm_compute. reflexivity.
Defined.

Lemma which_requests_return_witness :
  completion (serve exampleEnvironment (do_setSize 640%float 480%float) trackingPipeline) =
    Throw ReferenceError /\
  completion (serve exampleEnvironment (do_draw camA) examplePipeline) = Normal tt /\
  completion (serve exampleEnvironment (do_draw camA) trackingPipeline) = Throw TypeError.
Proof.
  split; [|split].
  - exact (which_requests_return exampleEnvironment trackingPipeline
             (do_setSize 640%float 480%float) eq_refl).
  - exact (which_requests_return exampleEnvironment examplePipeline (do_draw camA) eq_refl).
  - exact (which_requests_return exampleEnvironment trackingPipeline (do_draw camA) eq_refl).
Defined.

Lemma buffers_stay_null_witness :
  buffers (fst (session exampleEnvironment
                  (do_onload :: do_setSize 800%float 600%float :: stillFrames)
                  constructor)) =
  [None; None; None; None; None; None].
Proof.
  apply (buffers_stay_null exampleEnvironment
           (do_onload :: do_setSize 800%float 600%float :: stillFrames) constructor).
  reflexivity.
Defined.

Lemma preview_count_never_moves_witness :
  existsb is_adjustSize
    (snd (session exampleEnvironment
            [do_draw camB; do_draw camA; do_draw camB; do_draw camA; do_draw camB]
            trackingPipeline)) = false.
Proof.
  apply (preview_count_never_moves exampleEnvironment
           [do_draw camB; do_draw camA; do_draw camB; do_draw camA; do_draw camB]
           trackingPipeline).
  reflexivity.
Defined.
